(** * Stock ledger of the inventory application

    A shallow embedding of [inventory/models.py] ([Product], [Transaction],
    [TransactionDetail] with its [clean], [save] and [delete]), of the views
    of [inventory/views.py] that create and delete a transaction, delete a
    product and total the stock movements, of the stock checks of
    [inventory/forms.py] and of [create] and [update] of
    [inventory/serializers.py], with the properties of the stock ledger proved
    over it.

    Decimal columns ([DecimalField(max_digits=10, decimal_places=2)]) are
    integers counting hundredths: [1000] is the decimal [10.00].  Python's
    [Decimal] addition, subtraction and comparison are exact on such values,
    so they are [Z.add], [Z.sub] and [Z.ltb] here.  Neither [save] nor
    [delete] runs the field validators ([MinValueValidator], the number of
    digits), so none is part of them here.

    The database is a record of three tables keyed by primary key.  A model
    instance holds its related objects, as in Python; [related_loaded] says
    that they are the rows the database holds, which is the case for the
    instances a request has just read.  Every ORM call is one write to its
    table, in the order of the source, which opens no [transaction.atomic]
    block.  Most theorems speak of calls that return, or that raise before any
    write; C1, X1 and X2 describe a [save] that raises after it has written
    the product, and hold as long as nothing around the call takes that write
    back. *)

From stdpp Require Import base option list gmap fin_maps strings.
From Stdlib Require Import ZArith Lia.

Local Open Scope string_scope.
Local Open Scope Z_scope.

(** ** Rows and model instances *)

Module User.
Record t := mk { id : Z; is_staff : bool }.
End User.

Module Product.
(** The columns of [Product] that the ledger reads or writes, with the
    identifying ones. *)
Record t := mk {
  id : Z;
  product_name : string;
  product_code : string;
  current_stock : Z;
  unit_price : Z
}.

Definition set_current_stock (p : t) (v : Z) : t :=
  mk (id p) (product_name p) (product_code p) v (unit_price p).

Definition set_unit_price (p : t) (v : Z) : t :=
  mk (id p) (product_name p) (product_code p) (current_stock p) v.
End Product.

Module Transaction.
(** [id] is [None] until the transaction has been saved; [created_by] is
    the nullable foreign key to the user. *)
Record t := mk {
  id : option Z;
  transaction_type : string;
  created_by : option Z
}.

Definition TRANSACTION_TYPES : list (string * string) :=
  [("purchase", "Purchase"); ("sale", "Sale");
   ("return", "Return"); ("adjustment", "Adjustment")].
End Transaction.

Module DetailRow.
(** A row of [inventory_transactiondetail]: the two foreign keys are
    stored as keys. *)
Record t := mk {
  transaction_id : Z;
  product_id : Z;
  quantity : Z;
  unit_price : option Z
}.
End DetailRow.

(** The database. *)
Record DB := mkDB {
  products : gmap Z Product.t;
  transactions : gmap Z Transaction.t;
  details : gmap Z DetailRow.t
}.

Definition set_products (db : DB) (m : gmap Z Product.t) : DB :=
  mkDB m (transactions db) (details db).

Definition set_details (db : DB) (m : gmap Z DetailRow.t) : DB :=
  mkDB (products db) (transactions db) m.

(** ** Exceptions and the ORM monad

    A computation reads and writes the database and either returns or
    raises; the database it leaves behind is kept in both cases. *)

Inductive exn :=
| ValidationError (product : Product.t) (available requested : Z)
| InvalidTransactionType
| IntegrityError
| ValueError.

Definition ORM (A : Type) : Type := DB → (exn + A) * DB.

Definition raise {A} (e : exn) : ORM A := λ db, (inl e, db).
Definition lift {A} (r : exn + A) : ORM A := λ db, (r, db).
Definition modify (f : DB → DB) : ORM unit := λ db, (inr tt, f db).
Definition get : ORM DB := λ db, (inr db, db).

#[global] Instance ORM_ret : MRet ORM := λ A a db, (inr a, db).
#[global] Instance ORM_bind : MBind ORM := λ A B k m db,
  match m db with
  | (inr a, db') => k a db'
  | (inl e, db') => (inl e, db')
  end.

(** Python truth value of a primary key: [None] and [0] are false. *)
Definition truthy (k : option Z) : bool :=
  match k with
  | Some k => negb (k =? 0)
  | None => false
  end.

(** [x in [...]] on strings. *)
Definition str_in (x : string) (l : list string) : bool := bool_decide (x ∈ l).

(** The key the backend gives to an inserted row: the next one after the
    largest in use, starting at 1. *)
Definition new_pk {A} (m : gmap Z A) : Z :=
  1 + foldr Z.max 0 (map_to_list m).*1.

(** ** [Product] *)

(** [Product.objects.get(pk=pid)]: the instance carries the key it was found
    under. *)
Definition Product_get (db : DB) (pid : Z) : option Product.t :=
  p ← products db !! pid ;
  Some (Product.mk pid (Product.product_name p) (Product.product_code p)
          (Product.current_stock p) (Product.unit_price p)).

(** [Product.save()] of an instance that has a primary key writes its row. *)
Definition Product_save (p : Product.t) : ORM unit :=
  modify (λ db, set_products db (<[Product.id p := p]> (products db))).

(** ** [Transaction] *)

(** [Transaction.objects.get(pk=tid)]. *)
Definition Transaction_get (db : DB) (tid : Z) : option Transaction.t :=
  tr ← transactions db !! tid ;
  Some (Transaction.mk (Some tid) (Transaction.transaction_type tr)
          (Transaction.created_by tr)).

(** [Transaction.clean]. *)
Definition Transaction_clean (self : Transaction.t) : exn + unit :=
  if negb (str_in (Transaction.transaction_type self)
                  (Transaction.TRANSACTION_TYPES.*1))
  then inl InvalidTransactionType
  else inr tt.

(** [Transaction.delete] is the one inherited from [models.Model]: Django's
    deletion collector removes the rows that refer to the transaction through
    an [on_delete=CASCADE] foreign key with a DELETE on their table, then the
    transaction's row.  It does not call the [delete] method that
    [TransactionDetail] overrides, and the source connects no [pre_delete] or
    [post_delete] handler. *)
Definition Transaction_delete (self : Transaction.t) : ORM unit :=
  match Transaction.id self with
  | None => raise ValueError
  | Some tid =>
    modify (λ db,
      mkDB (products db)
           (delete tid (transactions db))
           (filter (λ kr, DetailRow.transaction_id kr.2 ≠ tid) (details db)))
  end.

(** ** [TransactionDetail] *)

Module TransactionDetail.
(** An instance: [transaction] and [product] are the related objects the
    instance holds, [pk] is [None] until it has been saved. *)
Record t := mk {
  pk : option Z;
  transaction : Transaction.t;
  product : Product.t;
  quantity : Z;
  unit_price : option Z
}.

Definition transaction_id (self : t) : option Z :=
  Transaction.id (transaction self).

Definition set_quantity (self : t) (q : Z) : t :=
  mk (pk self) (transaction self) (product self) q (unit_price self).
End TransactionDetail.

(** [UniqueConstraint(fields=['transaction', 'product'])]: some row other
    than the one of [self_pk] has the same pair. *)
Definition unique_transaction_product_violated
    (self_pk : option Z) (row : DetailRow.t) (tbl : gmap Z DetailRow.t) : bool :=
  bool_decide (map_Exists (λ k r,
    Some k ≠ self_pk ∧
    DetailRow.transaction_id r = DetailRow.transaction_id row ∧
    DetailRow.product_id r = DetailRow.product_id row) tbl).

(** [TransactionDetail.clean]. *)
Definition TransactionDetail_clean (self : TransactionDetail.t) : exn + unit :=
  if negb (truthy (TransactionDetail.transaction_id self)) then inr tt
  else
    if str_in (Transaction.transaction_type (TransactionDetail.transaction self))
              ["sale"]
    then
      if Product.current_stock (TransactionDetail.product self)
           <? TransactionDetail.quantity self
      then inl (ValidationError (TransactionDetail.product self)
                  (Product.current_stock (TransactionDetail.product self))
                  (TransactionDetail.quantity self))
      else inr tt
    else inr tt.

(** [models.Model.save] for [TransactionDetail] ([super().save()]): refuses
    an unsaved related transaction, then updates the row of [pk], or inserts
    one when [pk] is [None] or has no row, under the foreign key to the
    transaction and the uniqueness constraint.  Returns the row's key. *)
Definition TransactionDetail_Model_save (self : TransactionDetail.t) : ORM Z :=
  match TransactionDetail.transaction_id self with
  | None => raise ValueError
  | Some tid =>
    db ← get ;
    let row := DetailRow.mk tid (Product.id (TransactionDetail.product self))
                 (TransactionDetail.quantity self)
                 (TransactionDetail.unit_price self) in
    if bool_decide (transactions db !! tid = None) then raise IntegrityError
    else if unique_transaction_product_violated
              (TransactionDetail.pk self) row (details db)
    then raise IntegrityError
    else
      let k := match TransactionDetail.pk self with
               | Some k => k
               | None => new_pk (details db)
               end in
      modify (λ db, set_details db (<[k := row]> (details db))) ;;
      mret k
  end.

(** [models.Model.delete] for [TransactionDetail] ([super().delete()]). *)
Definition TransactionDetail_Model_delete (self : TransactionDetail.t) : ORM unit :=
  match TransactionDetail.pk self with
  | None => raise ValueError
  | Some k => modify (λ db, set_details db (delete k (details db)))
  end.

(** [TransactionDetail.save]. *)
Definition TransactionDetail_save (self : TransactionDetail.t) : ORM Z :=
  let is_new := negb (truthy (TransactionDetail.pk self)) in
  (if is_new then
     lift (TransactionDetail_clean self) ;;
     let product := TransactionDetail.product self in
     let product :=
       if str_in (Transaction.transaction_type (TransactionDetail.transaction self))
                 ["purchase"; "return"; "adjustment"]
       then Product.set_current_stock product
              (Product.current_stock product + TransactionDetail.quantity self)
       else Product.set_current_stock product
              (Product.current_stock product - TransactionDetail.quantity self) in
     let product :=
       match TransactionDetail.unit_price self with
       | Some price => Product.set_unit_price product price
       | None => product
       end in
     Product_save product
   else mret tt) ;;
  TransactionDetail_Model_save self.

(** [TransactionDetail.delete]. *)
Definition TransactionDetail_delete (self : TransactionDetail.t) : ORM unit :=
  let product := TransactionDetail.product self in
  let product :=
    if str_in (Transaction.transaction_type (TransactionDetail.transaction self))
              ["purchase"; "return"; "adjustment"]
    then Product.set_current_stock product
           (Product.current_stock product - TransactionDetail.quantity self)
    else Product.set_current_stock product
           (Product.current_stock product + TransactionDetail.quantity self) in
  Product_save product ;;
  TransactionDetail_Model_delete self.

(** [TransactionDetail.objects.get(pk=k)] with its two related objects
    loaded from their tables. *)
Definition TransactionDetail_get (db : DB) (k : Z) : option TransactionDetail.t :=
  r ← details db !! k ;
  tr ← Transaction_get db (DetailRow.transaction_id r) ;
  p ← Product_get db (DetailRow.product_id r) ;
  Some (TransactionDetail.mk (Some k) tr p
          (DetailRow.quantity r) (DetailRow.unit_price r)).

(** ** Views *)

Record HttpRequest := mkRequest {
  user : option User.t;      (* [None] is the anonymous user *)
  method : string
}.

Inductive HttpResponse :=
| redirect (to : string)
| render (template : string)
| Http404.

Inductive message :=
| messages_success (text : string)
| messages_error (text : string).

(** [transaction_delete]. *)
Definition transaction_delete (request : HttpRequest) (pk : Z) (db : DB)
    : HttpResponse * list message * DB :=
  match user request with
  | None => (redirect "login", [], db)
  | Some u =>
    match Transaction_get db pk with
    | None => (Http404, [], db)
    | Some transaction =>
      if String.eqb (method request) "POST" then
        if User.is_staff u
           || bool_decide (Transaction.created_by transaction = Some (User.id u))
        then
          let db' := (Transaction_delete transaction db).2 in
          (redirect "transaction_list",
           [messages_success "Transaction deleted successfully"], db')
        else
          (redirect "transaction_list",
           [messages_error "You do not have permission to delete this transaction"],
           db)
      else (redirect "transaction_list", [], db)
    end
  end.

(** The ledger lines of a product joined with their transactions: the
    transaction type and the quantity of each. *)
Definition line_of (db : DB) (pid : Z) (r : DetailRow.t) : option (string * Z) :=
  if bool_decide (DetailRow.product_id r = pid) then
    tr ← transactions db !! DetailRow.transaction_id r ;
    Some (Transaction.transaction_type tr, DetailRow.quantity r)
  else None.

Definition ledger_lines (db : DB) (pid : Z) : list (string * Z) :=
  omap (line_of db pid) (map_to_list (details db)).*2.

Definition Zsum (l : list Z) : Z := foldr Z.add 0 l.

(** SQL [SUM]: [NULL] over no rows. *)
Definition Sum (l : list Z) : option Z :=
  match l with
  | [] => None
  | _ => Some (Zsum l)
  end.

(** [Case(When(type__in=types, then=quantity), default=Value(0))] on a joined
    row; the row of [NULL]s that a LEFT OUTER JOIN gives a product without
    lines is [None]. *)
Definition Case_When_in (types : list string) (row : option (string * Z)) : Z :=
  match row with
  | Some (ty, q) => if str_in ty types then q else 0
  | None => 0
  end.

(** [Case(When(type=ty, then=quantity), default=Value(0))]. *)
Definition Case_When_eq (ty : string) (row : option (string * Z)) : Z :=
  match row with
  | Some (ty', q) => if String.eqb ty' ty then q else 0
  | None => 0
  end.

Record annotated := mkAnnotated {
  a_product : Product.t;
  total_in : option Z;
  total_out : option Z
}.

(** The query of [inventory_report]: every product with the two sums over
    its joined rows.  ([order_by] and the floating-point [total_value] are left
    out.) *)
Definition annotate (db : DB) (pid : Z) (p : Product.t) : annotated :=
  let rows :=
    match ledger_lines db pid with
    | [] => [None]
    | l => Some <$> l
    end in
  mkAnnotated p
    (Sum (Case_When_in ["purchase"; "return"; "adjustment"] <$> rows))
    (Sum (Case_When_in ["sale"] <$> rows)).

Definition inventory_report (request : HttpRequest) (db : DB)
    : HttpResponse * gmap Z annotated :=
  match user request with
  | None => (redirect "login", ∅)
  | Some _ =>
    (render "inventory/inventory_report.html",
     map_imap (λ pid p, Some (annotate db pid p)) (products db))
  end.

(** Python's [x or 0] on an aggregate. *)
Definition or_0 (x : option Z) : Z :=
  match x with
  | Some v => if v =? 0 then 0 else v
  | None => 0
  end.

Record movements_context := mkContext {
  movements : list (string * Z);
  ctx_total_in : Z;
  ctx_total_out : Z
}.

(** [ProductStockMovementsView.get_context_data] for the product of key
    [pk]; [None] when [get_object] finds none. *)
Definition ProductStockMovementsView_get_context_data (db : DB) (pk : Z)
    : option movements_context :=
  product ← Product_get db pk ;
  let details := Some <$> ledger_lines db (Product.id product) in
  let totals_total_in :=
    Sum (Case_When_in ["purchase"; "return"; "adjustment"] <$> details) in
  let totals_total_out := Sum (Case_When_eq "sale" <$> details) in
  Some (mkContext (ledger_lines db (Product.id product))
          (or_0 totals_total_in) (or_0 totals_total_out)).

(** ** The ledger invariant *)

Definition incoming : list string := ["purchase"; "return"; "adjustment"].

(** The signed quantity of a line: positive for purchase, return and
    adjustment, negative for sale.  A type outside [TRANSACTION_TYPES] is
    given no sign. *)
Definition signed_quantity (line : string * Z) : Z :=
  if str_in line.1 incoming then line.2
  else if str_in line.1 ["sale"] then - line.2
  else 0.

Definition signed_sum (db : DB) (pid : Z) : Z :=
  Zsum (signed_quantity <$> ledger_lines db pid).

(** Every product's counter is the signed sum of its lines. *)
Definition ledger_consistent (db : DB) : Prop :=
  map_Forall (λ pid p, Product.current_stock p = signed_sum db pid) (products db).

(** Every stored transaction passes [Transaction.clean]. *)
Definition transaction_types_valid (db : DB) : Prop :=
  map_Forall (λ _ tr, Transaction_clean tr = inr tt) (transactions db).

(** An instance whose related objects are the stored rows, as they are when
    the request has just read them. *)
Definition related_loaded (db : DB) (self : TransactionDetail.t) : Prop :=
  (∃ tid, Transaction_get db tid = Some (TransactionDetail.transaction self)) ∧
  Product_get db (Product.id (TransactionDetail.product self))
    = Some (TransactionDetail.product self).

(** The outcome of a call, without the value it returns. *)
Definition outcome_of {A} (r : exn + A) : exn + unit :=
  match r with
  | inl e => inl e
  | inr _ => inr tt
  end.

(** One ledger operation with its outcome: the creation of a line, however
    [save] ends (it returns, [clean] rejects the line, or the insert is
    refused after the product has been written), or the deletion of a stored
    line. *)
Inductive ledger_step (db : DB) : exn + unit → DB → Prop :=
| step_create self outcome db' :
    TransactionDetail.pk self = None →
    related_loaded db self →
    TransactionDetail_save self db = (outcome, db') →
    ledger_step db (outcome_of outcome) db'
| step_delete k self res db' :
    TransactionDetail_get db k = Some self →
    TransactionDetail_delete self db = (res, db') →
    ledger_step db res db'.

(** A sequence of ledger operations, with the outcome of each. *)
Inductive ledger_run : DB → list (exn + unit) → DB → Prop :=
| run_nil db : ledger_run db [] db
| run_cons db outcome db1 outcomes db' :
    ledger_step db outcome db1 →
    ledger_run db1 outcomes db' →
    ledger_run db (outcome :: outcomes) db'.

(** The stock of a product, as stored. *)
Definition stock (db : DB) (pid : Z) : option Z :=
  Product.current_stock <$> products db !! pid.

Definition price (db : DB) (pid : Z) : option Z :=
  Product.unit_price <$> products db !! pid.

(** The product instance as [save] leaves it for a new line. *)
Definition product_after_save (self : TransactionDetail.t) : Product.t :=
  let product := TransactionDetail.product self in
  let product :=
    if str_in (Transaction.transaction_type (TransactionDetail.transaction self))
              ["purchase"; "return"; "adjustment"]
    then Product.set_current_stock product
           (Product.current_stock product + TransactionDetail.quantity self)
    else Product.set_current_stock product
           (Product.current_stock product - TransactionDetail.quantity self) in
  match TransactionDetail.unit_price self with
  | Some price => Product.set_unit_price product price
  | None => product
  end.

(** The product instance as [delete] leaves it. *)
Definition product_after_delete (self : TransactionDetail.t) : Product.t :=
  let product := TransactionDetail.product self in
  if str_in (Transaction.transaction_type (TransactionDetail.transaction self))
            ["purchase"; "return"; "adjustment"]
  then Product.set_current_stock product
         (Product.current_stock product - TransactionDetail.quantity self)
  else Product.set_current_stock product
         (Product.current_stock product + TransactionDetail.quantity self).

Definition row_of (self : TransactionDetail.t) (tid : Z) : DetailRow.t :=
  DetailRow.mk tid (Product.id (TransactionDetail.product self))
    (TransactionDetail.quantity self) (TransactionDetail.unit_price self).

(** ** Report totals, as the claims word them *)

(** The sum of the quantities of the lines whose transaction type is
    purchase, return or adjustment, and of those whose type is sale. *)
Definition quantity_in (lines : list (string * Z)) : Z :=
  Zsum ((filter (λ l, l.1 ∈ ["purchase"; "return"; "adjustment"]) lines).*2).

Definition quantity_out (lines : list (string * Z)) : Z :=
  Zsum ((filter (λ l, l.1 = "sale") lines).*2).

(** The price rule as claim C9 states it: a supplied price overwrites the product's,
    and an absent one makes the stored line carry the product's price. *)
Definition price_defaults_to_product : Prop :=
  ∀ db self k db',
    TransactionDetail.pk self = None →
    related_loaded db self →
    TransactionDetail_save self db = (inr k, db') →
    let pid := Product.id (TransactionDetail.product self) in
    (∀ v, TransactionDetail.unit_price self = Some v → price db' pid = Some v) ∧
    (TransactionDetail.unit_price self = None →
       DetailRow.unit_price <$> details db' !! k
         = Some (Some (Product.unit_price (TransactionDetail.product self))) ∧
       price db' pid = price db pid).

#[global] Instance ledger_consistent_dec db : Decision (ledger_consistent db).
Proof. unfold ledger_consistent. apply _. Defined.

#[global] Instance Transaction_clean_ok_dec tr : Decision (Transaction_clean tr = inr tt).
Proof.
  unfold Transaction_clean. destruct (negb _); [right; discriminate | left; reflexivity].
Defined.

#[global] Instance transaction_types_valid_dec db : Decision (transaction_types_valid db).
Proof. unfold transaction_types_valid. apply _. Defined.

(** ** Example data *)

Definition widget : Product.t := Product.mk 1 "Widget" "WID-001" 0 250.
Definition gadget : Product.t := Product.mk 2 "Gadget" "GAD-001" 0 1200.
Definition purchase_1 : Transaction.t := Transaction.mk (Some 1) "purchase" (Some 7).
Definition sale_2 : Transaction.t := Transaction.mk (Some 2) "sale" (Some 7).
Definition sale_3 : Transaction.t := Transaction.mk (Some 3) "sale" (Some 8).

Definition db_0 : DB :=
  mkDB (<[1 := widget]> {[2 := gadget]})
       (<[1 := purchase_1]> (<[2 := sale_2]> {[3 := sale_3]}))
       ∅.

(** Purchase of 10.00 widgets. *)
Definition line_a : TransactionDetail.t :=
  TransactionDetail.mk None purchase_1 widget 1000 None.
Definition db_1 : DB := (TransactionDetail_save line_a db_0).2.

Definition widget_1 : Product.t := Product.set_current_stock widget 1000.

(** Sale of 15.00, more than the stock. *)
Definition line_b : TransactionDetail.t :=
  TransactionDetail.mk None sale_2 widget_1 1500 None.

(** Sale of 4.00. *)
Definition line_c : TransactionDetail.t :=
  TransactionDetail.mk None sale_3 widget_1 400 None.
Definition db_2 : DB := (TransactionDetail_save line_c db_1).2.

(** The purchase line, read back and deleted. *)
Definition line_a_stored : TransactionDetail.t :=
  TransactionDetail.mk (Some 1) purchase_1 (Product.set_current_stock widget 600)
    1000 None.
Definition db_3 : DB := (TransactionDetail_delete line_a_stored db_2).2.

(** Sale of the whole stock of 10.00. *)
Definition line_d : TransactionDetail.t :=
  TransactionDetail.mk None sale_2 widget_1 1000 None.

(** The purchase line of the example, with its quantity raised to 25.00. *)
Definition line_a_edited : TransactionDetail.t :=
  TransactionDetail.set_quantity line_a_stored 2500.

(** A purchase of 3.00 gadgets at 9.99. *)
Definition line_e : TransactionDetail.t :=
  TransactionDetail.mk None purchase_1 gadget 300 (Some 999).

(** ** The rest of the models and views *)

(** [models.Model.save] for [Transaction], which does not override it:
    the row of [id] is written, under a new key when [id] is [None].  The
    saved instance carries its key. *)
Definition Transaction_save (self : Transaction.t) : ORM Transaction.t :=
  db ← get ;
  let k := match Transaction.id self with
           | Some k => k
           | None => new_pk (transactions db)
           end in
  let saved := Transaction.mk (Some k) (Transaction.transaction_type self)
                 (Transaction.created_by self) in
  modify (λ db, mkDB (products db) (<[k := saved]> (transactions db)) (details db)) ;;
  mret saved.

(** [models.Model.delete] for [Product], which does not override it: the
    lines of the product go with it ([on_delete=CASCADE] on
    [TransactionDetail.product]), by a DELETE on their table. *)
Definition Product_delete (self : Product.t) : ORM unit :=
  modify (λ db,
    mkDB (delete (Product.id self) (products db))
         (transactions db)
         (filter (λ kr, DetailRow.product_id kr.2 ≠ Product.id self) (details db))).

(** [ProductDeleteView.delete] for the product of key [pk], once
    [LoginRequiredMixin] has let the request through. *)
Definition ProductDeleteView_delete (pk : Z) (db : DB)
    : HttpResponse * list message * DB :=
  match Product_get db pk with
  | None => (Http404, [], db)
  | Some product =>
    if negb (Product.current_stock product =? 0) then
      (render "inventory/product_confirm_delete.html",
       [messages_error "Cannot delete product with existing stock"], db)
    else
      (redirect "product_list",
       [messages_success
          ("Product " ++ Product.product_code product ++ " deleted")%string],
       (Product_delete product db).2)
  end.

(** [TransactionCreateView.form_valid] for the logged-in user [u] and the
    instance the valid form has built. *)
Definition TransactionCreateView_form_valid
    (u : User.t) (form_instance : Transaction.t) (db : DB)
    : HttpResponse * list message * DB :=
  let instance :=
    Transaction.mk (Transaction.id form_instance)
      (Transaction.transaction_type form_instance) (Some (User.id u)) in
  (redirect "transaction_list",
   [messages_success "Transaction created successfully"],
   (Transaction_save instance db).2).

(** ** Constraints of the schema *)

(** [unique_transaction_product]: no two rows share a (transaction, product)
    pair. *)
Definition unique_pairs (db : DB) : Prop :=
  map_Forall (λ k1 r1,
    map_Forall (λ k2 r2,
      DetailRow.transaction_id r1 = DetailRow.transaction_id r2 →
      DetailRow.product_id r1 = DetailRow.product_id r2 →
      k1 = k2) (details db)) (details db).

(** The foreign key of [TransactionDetail.transaction]: every line's
    transaction is stored. *)
Definition transactions_exist (db : DB) : Prop :=
  map_Forall (λ _ r, is_Some (transactions db !! DetailRow.transaction_id r))
    (details db).

(** One call of a model method, whatever it is given and however it ends. *)
Inductive orm_step (db : DB) : DB → Prop :=
| orm_detail_save self :
    orm_step db (TransactionDetail_save self db).2
| orm_detail_delete self :
    orm_step db (TransactionDetail_delete self db).2
| orm_transaction_save self :
    orm_step db (Transaction_save self db).2
| orm_transaction_delete self :
    orm_step db (Transaction_delete self db).2
| orm_product_delete self :
    orm_step db (Product_delete self db).2.

(** The signed sum of the lines that [f] reads off the rows of a table;
    [signed_sum db pid] is [lines_sum (line_of db pid) (details db)]. *)
Definition lines_sum (f : DetailRow.t → option (string * Z))
    (m : gmap Z DetailRow.t) : Z :=
  Zsum (signed_quantity <$> omap f (map_to_list m).*2).

(** The signed sum of the lines that transaction [tid] has on product
    [pid]. *)
Definition transaction_contribution (db : DB) (tid pid : Z) : Z :=
  lines_sum (λ r, if bool_decide (DetailRow.transaction_id r = tid)
                  then line_of db pid r else None) (details db).

#[global] Instance unique_pairs_dec db : Decision (unique_pairs db).
Proof. unfold unique_pairs. apply _. Defined.

#[global] Instance transactions_exist_dec db : Decision (transactions_exist db).
Proof. unfold transactions_exist. apply _. Defined.

(** ** [serializers.py] and [forms.py] *)

Module DetailData.
(** An item of the validated [details]: the product instance that
    [PrimaryKeyRelatedField] has read, the quantity and the optional price. *)
Record t := mk {
  product : Product.t;
  quantity : Z;
  unit_price : option Z
}.
End DetailData.

(** What the validation errors of the serializers and of the form are built
    from, and the Python errors their comparisons can raise. *)
Inductive check_error :=
| InsufficientStockFor (product_code : string) (available requested : Z)
| InsufficientStock (available : Z)
| QuantityNotPositive
| AttributeError
| TypeError.

(** [TransactionDetailSerializer.validate], with the request method and the
    [transaction_type] entry of the context. *)
Definition TransactionDetailSerializer_validate
    (request_method : string) (transaction_type : option string)
    (product : option Product.t) (quantity : option Z) : check_error + unit :=
  if str_in request_method ["POST"; "PUT"; "PATCH"] then
    if match transaction_type with
       | Some ty => str_in ty ["sale"]
       | None => false
       end
    then
      match product with
      | None => inl AttributeError
      | Some product =>
        match quantity with
        | None => inl TypeError
        | Some quantity =>
          if Product.current_stock product <? quantity
          then inl (InsufficientStockFor (Product.product_code product)
                      (Product.current_stock product) quantity)
          else inr tt
        end
      end
    else inr tt
  else inr tt.

(** [TransactionDetail.objects.create(transaction=..., product=...,
    quantity=..., unit_price=...)]. *)
Definition TransactionDetail_objects_create
    (transaction : Transaction.t) (detail_data : DetailData.t) : ORM Z :=
  TransactionDetail_save
    (TransactionDetail.mk None transaction (DetailData.product detail_data)
       (DetailData.quantity detail_data) (DetailData.unit_price detail_data)).

(** The loop [for detail_data in details_data] of [create] and [update]. *)
Fixpoint create_details (transaction : Transaction.t)
    (details_data : list DetailData.t) : ORM unit :=
  match details_data with
  | [] => mret tt
  | detail_data :: details_data =>
    TransactionDetail_objects_create transaction detail_data ;;
    create_details transaction details_data
  end.

(** [TransactionSerializer.create]: [request] is the context's request, if
    any; assigning the anonymous user to [created_by] is a [ValueError]. *)
Definition TransactionSerializer_create
    (request : option HttpRequest) (transaction_type : string)
    (details_data : list DetailData.t) : ORM Transaction.t :=
  created_by ← match request with
               | None => mret None
               | Some request =>
                 match user request with
                 | Some u => mret (Some (User.id u))
                 | None => raise ValueError
                 end
               end ;
  transaction ← Transaction_save (Transaction.mk None transaction_type created_by) ;
  create_details transaction details_data ;;
  mret transaction.

(** [instance.details.all().delete()]: a DELETE on the lines of the
    transaction, which calls no [delete] method of a line. *)
Definition details_all_delete (instance : Transaction.t) : ORM unit :=
  match Transaction.id instance with
  | None => raise ValueError
  | Some tid =>
    modify (λ db,
      set_details db
        (filter (λ kr, DetailRow.transaction_id kr.2 ≠ tid) (details db)))
  end.

(** [TransactionSerializer.update]: [transaction_type] is the validated
    field, if the request carries it, [details_data] the validated [details],
    if any. *)
Definition TransactionSerializer_update
    (instance : Transaction.t) (transaction_type : option string)
    (details_data : option (list DetailData.t)) : ORM Transaction.t :=
  let instance :=
    match transaction_type with
    | Some ty => Transaction.mk (Transaction.id instance) ty
                   (Transaction.created_by instance)
    | None => instance
    end in
  instance ← Transaction_save instance ;
  match details_data with
  | Some details_data =>
    details_all_delete instance ;;
    create_details instance details_data
  | None => mret tt
  end ;;
  mret instance.

(** [TransactionDetailForm.clean_quantity]. *)
Definition TransactionDetailForm_clean_quantity (quantity : Z) : check_error + Z :=
  if quantity <=? 0 then inl QuantityNotPositive else inr quantity.

(** [TransactionDetailForm.clean], with the [product] and [quantity] of
    [cleaned_data]; a quantity of zero is false in Python. *)
Definition TransactionDetailForm_clean
    (instance : TransactionDetail.t)
    (product : option Product.t) (quantity : option Z) : check_error + unit :=
  match product, quantity with
  | Some product, Some quantity =>
    if negb (quantity =? 0) then
      if str_in (Transaction.transaction_type (TransactionDetail.transaction instance))
                ["sale"]
      then
        if Product.current_stock product <? quantity
        then inl (InsufficientStock (Product.current_stock product))
        else inr tt
      else inr tt
    else inr tt
  | _, _ => inr tt
  end.

(** The products of the items are the stored rows, each once. *)
Definition details_loaded (db : DB) (details_data : list DetailData.t) : Prop :=
  Forall (λ d, Product_get db (Product.id (DetailData.product d))
               = Some (DetailData.product d)) details_data ∧
  NoDup ((λ d, Product.id (DetailData.product d)) <$> details_data).

(** Stock less signed sum: zero for every product in a consistent ledger. *)
Definition discrepancy (db : DB) (pid : Z) : option Z :=
  (λ p, Product.current_stock p - signed_sum db pid) <$> products db !! pid.

(** The row of an item under transaction [tid]. *)
Definition line_row (tid : Z) (d : DetailData.t) : DetailRow.t :=
  DetailRow.mk tid (Product.id (DetailData.product d))
    (DetailData.quantity d) (DetailData.unit_price d).

(** The stock that [save] leaves a product of an item. *)
Definition stock_after (t : Transaction.t) (d : DetailData.t) : Z :=
  if str_in (Transaction.transaction_type t) ["purchase"; "return"; "adjustment"]
  then Product.current_stock (DetailData.product d) + DetailData.quantity d
  else Product.current_stock (DetailData.product d) - DetailData.quantity d.

(** A sale of 50.00 widgets under a transaction that is not saved, with
    10.00 in stock. *)
Definition line_unsaved : TransactionDetail.t :=
  TransactionDetail.mk None (Transaction.mk None "sale" (Some 7)) widget_1 5000 None.

(** A second purchase of widgets under the purchase transaction of the
    example. *)
Definition line_again : TransactionDetail.t :=
  TransactionDetail.mk None purchase_1 widget_1 500 None.
Definition db_dup : DB := (TransactionDetail_save line_again db_1).2.

(** An edit of stored data: a stored line saved again, with whatever values
    in its fields, or a stored transaction saved again. *)
Inductive edit_step (db : DB) : DB → Prop :=
| edit_line k line self outcome db' :
    TransactionDetail_get db k = Some line →
    k ≠ 0 →
    TransactionDetail.pk self = Some k →
    TransactionDetail_save self db = (outcome, db') →
    edit_step db db'
| edit_transaction tid t self outcome db' :
    Transaction_get db tid = Some t →
    Transaction.id self = Some tid →
    Transaction_save self db = (outcome, db') →
    edit_step db db'.

(** Deletion takes back what creation applied, for every existing line: a
    line is created, stored data is edited any number of times, and the
    deletion of the line, as it is then stored, moves the stock of its
    product back by what its creation had moved it. *)
Definition deletion_reverses_creation : Prop :=
  ∀ db self k db1 db2 line db3,
    TransactionDetail.pk self = None →
    related_loaded db self →
    TransactionDetail_save self db = (inr k, db1) →
    rtc edit_step db1 db2 →
    TransactionDetail_get db2 k = Some line →
    TransactionDetail_delete line db2 = (inr tt, db3) →
    let pid := Product.id (TransactionDetail.product self) in
    ∃ s0 s1 s2 s3,
      stock db pid = Some s0 ∧ stock db1 pid = Some s1 ∧
      stock db2 pid = Some s2 ∧ stock db3 pid = Some s3 ∧
      s3 = s2 - (s1 - s0).

(** The purchase line of the example right after its creation, with its
    quantity raised to 25.00, saved and then deleted. *)
Definition line_a_raised : TransactionDetail.t :=
  TransactionDetail.mk (Some 1) purchase_1 widget_1 2500 None.
Definition db_raised : DB := (TransactionDetail_save line_a_raised db_1).2.
Definition db_lowered : DB := (TransactionDetail_delete line_a_raised db_raised).2.

(** The purchase transaction of the example, turned into a sale. *)
Definition purchase_1_as_sale : Transaction.t :=
  Transaction.mk (Some 1) "sale" (Transaction.created_by purchase_1).
Definition db_retyped : DB := (Transaction_save purchase_1_as_sale db_1).2.

(** ** Lemmas on keys, sums and the joined lines *)

Lemma foldr_max_ge (l : list Z) (k : Z) : k ∈ l → k ≤ foldr Z.max 0 l.
Proof.
  induction l as [|x l IH]; simpl.
  - intros H. by apply elem_of_nil in H.
  - intros [->|H]%elem_of_cons; [lia|]. specialize (IH H). lia.
Qed.

Lemma new_pk_fresh {A} (m : gmap Z A) : m !! new_pk m = None.
Proof.
  destruct (m !! new_pk m) as [x|] eqn:E; [|done].
  assert (new_pk m ∈ (map_to_list m).*1) as Hin.
  { apply list_elem_of_fmap. exists (new_pk m, x). split; [done|].
    by apply elem_of_map_to_list. }
  apply foldr_max_ge in Hin. unfold new_pk in Hin at 1. lia.
Qed.

Lemma new_pk_pos {A} (m : gmap Z A) : 0 < new_pk m.
Proof.
  unfold new_pk.
  assert (0 ≤ foldr Z.max 0 (map_to_list m).*1); [|lia].
  induction ((map_to_list m).*1); simpl; lia.
Qed.

#[global] Instance Zsum_Permutation : Proper ((≡ₚ) ==> (=)) Zsum.
Proof.
  intros l1 l2 H. unfold Zsum.
  induction H; simpl; lia.
Qed.

Lemma Zsum_app (l1 l2 : list Z) : Zsum (l1 ++ l2) = Zsum l1 + Zsum l2.
Proof. unfold Zsum. induction l1; simpl; lia. Qed.

Lemma omap_pointwise {A B} (f g : A → option B) (l : list A) :
  (∀ x, f x = g x) → omap f l = omap g l.
Proof. intros E. induction l as [|x l IH]; csimpl; [done|]. by rewrite E, IH. Qed.

Lemma line_of_frame (db db' : DB) (pid : Z) (r : DetailRow.t) :
  transactions db' = transactions db → line_of db' pid r = line_of db pid r.
Proof. intros Ht. unfold line_of. by rewrite Ht. Qed.

Lemma ledger_lines_insert (db db' : DB) (pid k : Z) (row : DetailRow.t) :
  transactions db' = transactions db →
  details db !! k = None →
  details db' = <[k := row]> (details db) →
  ledger_lines db' pid ≡ₚ option_list (line_of db pid row) ++ ledger_lines db pid.
Proof.
  intros Ht Hk Hd. unfold ledger_lines. rewrite Hd.
  rewrite (map_to_list_insert _ _ _ Hk). simpl.
  rewrite (line_of_frame db db') by done.
  rewrite (omap_pointwise (line_of db' pid) (line_of db pid))
    by (intros; by apply line_of_frame).
  by destruct (line_of db pid row).
Qed.

Lemma ledger_lines_delete (db db' : DB) (pid k : Z) (row : DetailRow.t) :
  transactions db' = transactions db →
  details db !! k = Some row →
  details db' = delete k (details db) →
  ledger_lines db pid ≡ₚ option_list (line_of db pid row) ++ ledger_lines db' pid.
Proof.
  intros Ht Hk Hd. unfold ledger_lines. rewrite Hd.
  rewrite <-(map_to_list_delete _ _ _ Hk). simpl.
  rewrite (omap_pointwise (line_of db' pid) (line_of db pid))
    by (intros; by apply line_of_frame).
  by destruct (line_of db pid row).
Qed.

(** ** What [save] and [delete] do, step by step *)

Lemma product_after_save_id self :
  Product.id (product_after_save self) = Product.id (TransactionDetail.product self).
Proof.
  unfold product_after_save.
  destruct (TransactionDetail.unit_price self), (str_in _ _); reflexivity.
Qed.

Lemma product_after_delete_id self :
  Product.id (product_after_delete self) = Product.id (TransactionDetail.product self).
Proof. unfold product_after_delete. destruct (str_in _ _); reflexivity. Qed.

Lemma save_new_eq self db :
  TransactionDetail.pk self = None →
  TransactionDetail_save self db =
    match TransactionDetail_clean self with
    | inl e => (inl e, db)
    | inr _ =>
      TransactionDetail_Model_save self
        (set_products db
           (<[Product.id (TransactionDetail.product self) := product_after_save self]>
              (products db)))
    end.
Proof.
  intros Hpk. rewrite <-product_after_save_id.
  unfold TransactionDetail_save. rewrite Hpk. simpl.
  unfold mbind, ORM_bind, lift. destruct (TransactionDetail_clean self); reflexivity.
Qed.

Lemma save_existing_eq self db :
  truthy (TransactionDetail.pk self) = true →
  TransactionDetail_save self db = TransactionDetail_Model_save self db.
Proof.
  intros Hpk. unfold TransactionDetail_save. rewrite Hpk. simpl.
  unfold mbind, ORM_bind, mret, ORM_ret.
  by destruct (TransactionDetail_Model_save self db) as [[]].
Qed.

Lemma Model_save_new_eq self db :
  TransactionDetail.pk self = None →
  TransactionDetail_Model_save self db =
    match TransactionDetail.transaction_id self with
    | None => (inl ValueError, db)
    | Some tid =>
      if bool_decide (transactions db !! tid = None) then (inl IntegrityError, db)
      else if unique_transaction_product_violated None (row_of self tid) (details db)
      then (inl IntegrityError, db)
      else (inr (new_pk (details db)),
            set_details db (<[new_pk (details db) := row_of self tid]> (details db)))
    end.
Proof.
  intros Hpk. unfold TransactionDetail_Model_save. rewrite Hpk.
  destruct (TransactionDetail.transaction_id self) as [tid|]; [|reflexivity].
  unfold mbind, ORM_bind, get. fold (row_of self tid).
  destruct (bool_decide _); [reflexivity|].
  destruct (unique_transaction_product_violated _ _ _); reflexivity.
Qed.

Lemma delete_eq self db k :
  TransactionDetail.pk self = Some k →
  TransactionDetail_delete self db =
    (inr tt,
     mkDB (<[Product.id (TransactionDetail.product self) := product_after_delete self]>
             (products db))
          (transactions db)
          (delete k (details db))).
Proof.
  intros Hpk. rewrite <-product_after_delete_id.
  unfold TransactionDetail_delete, TransactionDetail_Model_delete. rewrite Hpk.
  reflexivity.
Qed.

Lemma related_loaded_inv db self :
  related_loaded db self →
  ∃ tid trow prow,
    TransactionDetail.transaction_id self = Some tid ∧
    transactions db !! tid = Some trow ∧
    Transaction.transaction_type (TransactionDetail.transaction self)
      = Transaction.transaction_type trow ∧
    products db !! Product.id (TransactionDetail.product self) = Some prow ∧
    Product.current_stock (TransactionDetail.product self)
      = Product.current_stock prow ∧
    Product.unit_price (TransactionDetail.product self) = Product.unit_price prow.
Proof.
  intros [[tid Ht] Hp]. unfold Transaction_get, Product_get in *.
  destruct (transactions db !! tid) as [trow|] eqn:Et; [|done].
  destruct (products db !! _) as [prow|] eqn:Ep; [|done].
  simpl in *. injection Ht as Ht. injection Hp as Hp.
  exists tid, trow, prow. unfold TransactionDetail.transaction_id.
  repeat split; try done; by (rewrite <-Ht || rewrite <-Hp).
Qed.

(** With a type that [Transaction.clean] accepts, the sign the claim gives a
    line is the one of the branch [save] takes. *)
Lemma signed_quantity_valid tr q :
  Transaction_clean tr = inr tt →
  signed_quantity (Transaction.transaction_type tr, q) =
    if str_in (Transaction.transaction_type tr) ["purchase"; "return"; "adjustment"]
    then q else - q.
Proof.
  unfold Transaction_clean, signed_quantity, incoming, str_in. simpl.
  generalize (Transaction.transaction_type tr). intros ty.
  repeat case_bool_decide; simpl; try done.
  rewrite ?elem_of_cons, ?elem_of_nil in *. tauto.
Qed.

Lemma signed_sum_insert db db' pid k row :
  transactions db' = transactions db →
  details db !! k = None →
  details db' = <[k := row]> (details db) →
  signed_sum db' pid =
    Zsum (signed_quantity <$> option_list (line_of db pid row)) + signed_sum db pid.
Proof.
  intros Ht Hk Hd. unfold signed_sum.
  rewrite (ledger_lines_insert db db' pid k row Ht Hk Hd).
  by rewrite fmap_app, Zsum_app.
Qed.

Lemma signed_sum_delete db db' pid k row :
  transactions db' = transactions db →
  details db !! k = Some row →
  details db' = delete k (details db) →
  signed_sum db pid =
    Zsum (signed_quantity <$> option_list (line_of db pid row)) + signed_sum db' pid.
Proof.
  intros Ht Hk Hd. unfold signed_sum.
  rewrite (ledger_lines_delete db db' pid k row Ht Hk Hd).
  by rewrite fmap_app, Zsum_app.
Qed.

(** What an accepted creation leaves behind. *)
Lemma save_new_ok_inv self db k db' :
  TransactionDetail.pk self = None →
  TransactionDetail_save self db = (inr k, db') →
  ∃ tid,
    TransactionDetail_clean self = inr tt ∧
    TransactionDetail.transaction_id self = Some tid ∧
    unique_transaction_product_violated None (row_of self tid) (details db) = false ∧
    k = new_pk (details db) ∧
    db' = mkDB (<[Product.id (TransactionDetail.product self) := product_after_save self]>
                  (products db))
               (transactions db)
               (<[k := row_of self tid]> (details db)).
Proof.
  intros Hpk. rewrite save_new_eq by done.
  destruct (TransactionDetail_clean self) as [e|[]]; [done|].
  rewrite Model_save_new_eq by done. simpl.
  destruct (TransactionDetail.transaction_id self) as [tid|]; [|done].
  destruct (bool_decide _); [done|].
  destruct (unique_transaction_product_violated _ _ _) eqn:Eu; [done|].
  intros [= <- <-]. by exists tid.
Qed.

(** A creation that [clean] rejects leaves the database as it was. *)
Lemma save_new_rejected_inv self db p a r db' :
  TransactionDetail.pk self = None →
  TransactionDetail_save self db = (inl (ValidationError p a r), db') →
  db' = db ∧
  TransactionDetail_clean self = inl (ValidationError p a r).
Proof.
  intros Hpk. rewrite save_new_eq by done.
  destruct (TransactionDetail_clean self) as [e|[]].
  - by intros [= -> ->].
  - rewrite Model_save_new_eq by done. simpl.
    destruct (TransactionDetail.transaction_id self) as [tid|]; [|done].
    destruct (bool_decide _); [done|].
    by destruct (unique_transaction_product_violated _ _ _).
Qed.

Lemma product_after_save_stock self :
  Product.current_stock (product_after_save self) =
    if str_in (Transaction.transaction_type (TransactionDetail.transaction self))
              ["purchase"; "return"; "adjustment"]
    then Product.current_stock (TransactionDetail.product self)
         + TransactionDetail.quantity self
    else Product.current_stock (TransactionDetail.product self)
         - TransactionDetail.quantity self.
Proof.
  unfold product_after_save.
  destruct (TransactionDetail.unit_price self), (str_in _ _); reflexivity.
Qed.

Lemma product_after_save_price self :
  Product.unit_price (product_after_save self) =
    match TransactionDetail.unit_price self with
    | Some price => price
    | None => Product.unit_price (TransactionDetail.product self)
    end.
Proof.
  unfold product_after_save.
  destruct (TransactionDetail.unit_price self), (str_in _ _); reflexivity.
Qed.

Lemma product_after_delete_stock self :
  Product.current_stock (product_after_delete self) =
    if str_in (Transaction.transaction_type (TransactionDetail.transaction self))
              ["purchase"; "return"; "adjustment"]
    then Product.current_stock (TransactionDetail.product self)
         - TransactionDetail.quantity self
    else Product.current_stock (TransactionDetail.product self)
         + TransactionDetail.quantity self.
Proof. unfold product_after_delete. destruct (str_in _ _); reflexivity. Qed.

(** What [TransactionDetail_get] found. *)
Lemma TransactionDetail_get_inv db k self :
  TransactionDetail_get db k = Some self →
  ∃ r trow prow,
    details db !! k = Some r ∧
    transactions db !! DetailRow.transaction_id r = Some trow ∧
    products db !! DetailRow.product_id r = Some prow ∧
    self = TransactionDetail.mk (Some k)
             (Transaction.mk (Some (DetailRow.transaction_id r))
                (Transaction.transaction_type trow) (Transaction.created_by trow))
             (Product.mk (DetailRow.product_id r) (Product.product_name prow)
                (Product.product_code prow) (Product.current_stock prow)
                (Product.unit_price prow))
             (DetailRow.quantity r) (DetailRow.unit_price r).
Proof.
  unfold TransactionDetail_get, Transaction_get, Product_get.
  destruct (details db !! k) as [r|]; [|done]. simpl.
  destruct (transactions db !! _) as [trow|] eqn:Et; [|done]. simpl.
  destruct (products db !! _) as [prow|] eqn:Ep; [|done]. simpl.
  intros [= <-]. by exists r, trow, prow.
Qed.

Lemma line_of_own db pid tid trow q up :
  transactions db !! tid = Some trow →
  line_of db pid (DetailRow.mk tid pid q up)
    = Some (Transaction.transaction_type trow, q).
Proof.
  intros Ht. unfold line_of. simpl.
  rewrite bool_decide_true by done. by rewrite Ht.
Qed.

Lemma line_of_other db pid r :
  DetailRow.product_id r ≠ pid → line_of db pid r = None.
Proof. intros Hne. unfold line_of. by rewrite bool_decide_false. Qed.

(** How [save] of a new line with loaded related objects can end. *)
Lemma save_new_cases self db outcome db' :
  TransactionDetail.pk self = None →
  related_loaded db self →
  TransactionDetail_save self db = (outcome, db') →
  (∃ k, outcome = inr k) ∨
  (∃ p a r, outcome = inl (ValidationError p a r) ∧ db' = db) ∨
  (outcome = inl IntegrityError ∧ transactions db' = transactions db ∧
   details db' = details db).
Proof.
  intros Hpk Hload.
  destruct (related_loaded_inv _ _ Hload) as (tid & trow & _ & Htid & Htr & _).
  rewrite save_new_eq by done.
  destruct (TransactionDetail_clean self) as [e|[]] eqn:Hclean.
  - intros [= <- <-]. right. left. revert Hclean. unfold TransactionDetail_clean.
    destruct (negb _); [done|]. destruct (str_in _ _); [|done].
    destruct (_ <? _); [|done]. intros [= <-]. eauto.
  - rewrite Model_save_new_eq by done. rewrite Htid. simpl.
    rewrite bool_decide_false by congruence.
    destruct (unique_transaction_product_violated _ _ _).
    + intros [= <- <-]. by right; right.
    + intros [= <- <-]. left. eauto.
Qed.

Lemma ledger_step_transactions db outcome db' :
  ledger_step db outcome db' → transactions db' = transactions db.
Proof.
  intros [self o ? Hpk Hload Hsave | k self res ? Hget Hdel].
  - destruct (save_new_cases _ _ _ _ Hpk Hload Hsave)
      as [[k ->]|[(p & a & r & -> & ->)|(-> & Ht & _)]]; [|done..].
    by destruct (save_new_ok_inv _ _ _ _ Hpk Hsave) as (? & _ & _ & _ & _ & ->).
  - destruct (TransactionDetail_get_inv _ _ _ Hget) as (r & trow & prow & _ & _ & _ & ->).
    rewrite (delete_eq _ _ k) in Hdel by done. by injection Hdel as _ <-.
Qed.

(** Every ledger operation that the uniqueness constraint does not abort
    keeps the counters equal to the signed sums. *)
Lemma ledger_step_consistent db outcome db' :
  transaction_types_valid db →
  ledger_consistent db →
  ledger_step db outcome db' →
  outcome ≠ inl IntegrityError →
  ledger_consistent db'.
Proof.
  intros Hvalid Hcons [self o ? Hpk Hload Hsave | k self res ? Hget Hdel] Hok.
  - destruct (save_new_cases _ _ _ _ Hpk Hload Hsave)
      as [[k ->]|[(p & a & r & -> & ->)|(-> & _)]]; [|done..].
    destruct (save_new_ok_inv _ _ _ _ Hpk Hsave) as (tid & _ & Htid & _ & -> & ->).
    destruct (related_loaded_inv _ _ Hload)
      as (tid' & trow & prow & Htid' & Htr & Hty & Hp & Hs & _).
    assert (tid' = tid) as -> by congruence.
    intros pid p2 Hlook. simpl in Hlook.
    rewrite (signed_sum_insert db _ pid (new_pk (details db)) (row_of self tid));
      [|done|apply new_pk_fresh|done].
    destruct (decide (pid = Product.id (TransactionDetail.product self))) as [->|Hne].
    + rewrite lookup_insert_eq in Hlook. injection Hlook as <-.
      unfold row_of. rewrite (line_of_own _ _ _ trow) by done. simpl.
      rewrite product_after_save_stock, (signed_quantity_valid trow) by eauto.
      rewrite Hty, Hs, (Hcons _ _ Hp). destruct (str_in _ _); lia.
    + rewrite lookup_insert_ne in Hlook by done.
      rewrite line_of_other by done. simpl. by apply Hcons.
  - destruct (TransactionDetail_get_inv _ _ _ Hget)
      as (r & trow & prow & Hr & Htr & Hp & ->).
    rewrite (delete_eq _ _ k) in Hdel by done. injection Hdel as _ <-.
    match goal with |- ledger_consistent ?d => set (db2 := d) end.
    intros pid p2 Hlook.
    pose proof (signed_sum_delete db db2 pid k r eq_refl Hr eq_refl) as Hsum.
    unfold db2 in Hlook. simpl in Hlook. clearbody db2.
    destruct (decide (pid = DetailRow.product_id r)) as [->|Hne].
    + rewrite lookup_insert_eq in Hlook. injection Hlook as <-.
      destruct r as [tid pid q up]. simpl in *.
      rewrite (line_of_own _ _ _ trow) in Hsum by done. simpl in Hsum.
      rewrite (signed_quantity_valid trow) in Hsum by eauto.
      rewrite product_after_delete_stock. simpl.
      pose proof (Hcons _ _ Hp) as Hc. simpl in Hc.
      revert Hsum. destruct (str_in _ _); lia.
    + rewrite lookup_insert_ne in Hlook by done.
      rewrite line_of_other in Hsum by done. simpl in Hsum.
      rewrite (Hcons _ _ Hlook). lia.
Qed.

Example stock_db_1 : stock db_1 1 = Some 1000.
Proof. vm_compute. reflexivity. Qed.

Example stock_db_3 : stock db_3 1 = Some (-400).
Proof. vm_compute. reflexivity. Qed.

Example consistent_db_0 : ledger_consistent db_0.
Proof. apply (bool_decide_unpack _). vm_compute. exact I. Qed.

(** ** The claims *)

(** The invariant without aborted creations: from a database whose
    transaction types are valid and whose counters equal the signed sums, a
    sequence of creations and deletions none of which is aborted by the
    uniqueness constraint leaves every product's [current_stock] equal to the
    signed sum of its remaining lines. *)
Lemma ledger_run_consistent (db : DB) (outcomes : list (exn + unit)) (db' : DB) :
  transaction_types_valid db →
  ledger_consistent db →
  ledger_run db outcomes db' →
  inl IntegrityError ∉ outcomes →
  ∀ pid p, products db' !! pid = Some p →
    Product.current_stock p = signed_sum db' pid.
Proof.
  intros Hvalid Hcons Hrun. revert Hvalid Hcons.
  induction Hrun as [db|db o db1 os db2 Hstep _ IH]; intros Hvalid Hcons Hnot.
  - exact Hcons.
  - apply not_elem_of_cons in Hnot as [Ho Hos]. apply IH; [| |done].
    + unfold transaction_types_valid.
      by rewrite (ledger_step_transactions _ _ _ Hstep).
    + by eapply ledger_step_consistent.
Qed.

(** The run of the example: purchase of 10.00, rejected sale of 15.00, sale
    of 4.00, deletion of the purchase line. *)
Example scenario_run :
  ledger_run db_0
    [inr tt; inl (ValidationError widget_1 1000 1500); inr tt; inr tt] db_3 ∧
  ledger_consistent db_3.
Proof.
  split; [|apply (bool_decide_unpack _); vm_compute; exact I].
  eapply run_cons.
  { apply (step_create db_0 line_a (inr 1) db_1); [reflexivity| |by vm_compute].
    split; [by exists 1|reflexivity]. }
  eapply run_cons.
  { apply (step_create db_1 line_b (inl (ValidationError widget_1 1000 1500)) db_1);
      [reflexivity| |by vm_compute].
    split; [by exists 2|by vm_compute]. }
  eapply run_cons.
  { apply (step_create db_1 line_c (inr 2) db_2); [reflexivity| |by vm_compute].
    split; [by exists 3|by vm_compute]. }
  eapply run_cons; [|apply run_nil].
  apply (step_delete db_2 1 line_a_stored (inr tt) db_3); by vm_compute.
Qed.

(** C1 at the failing input.  From the consistent database of the example
    (stock 0, no line), a purchase line of 10.00 widgets is created, and the
    creation of a second line of 5.00 under the same transaction and product
    is aborted by the uniqueness constraint after [save] has written the
    product: the stock is 15.00 with one line of 10.00, so the counter is not
    the signed sum of the remaining lines. *)
Theorem duplicate_creation_breaks_ledger :
  transaction_types_valid db_0 ∧
  ledger_consistent db_0 ∧
  ledger_run db_0 [inr tt; inl IntegrityError] db_dup ∧
  stock db_dup 1 = Some 1500 ∧
  ledger_lines db_dup 1 = [("purchase", 1000)] ∧
  signed_sum db_dup 1 = 1000 ∧
  ¬ ledger_consistent db_dup.
Proof.
  split; [apply (bool_decide_unpack _); vm_compute; exact I|].
  split; [apply (bool_decide_unpack _); vm_compute; exact I|].
  split.
  { eapply run_cons.
    { apply (step_create db_0 line_a (inr 1) db_1); [reflexivity| |by vm_compute].
      split; [by exists 1|reflexivity]. }
    eapply run_cons; [|apply run_nil].
    apply (step_create db_1 line_again (inl IntegrityError) db_dup);
      [reflexivity| |by vm_compute].
    split; [by exists 1|by vm_compute]. }
  split; [by vm_compute|]. split; [by vm_compute|]. split; [by vm_compute|].
  intros Hcons.
  pose proof (Hcons 1 (Product.set_current_stock widget 1500)) as H.
  simpl in H. specialize (H ltac:(by vm_compute)).
  vm_compute in H. discriminate H.
Qed.

(** The same through the API: a purchase whose [details] name the widget
    twice.  Both product instances were read before the first line was saved,
    so the second [save] writes 0 + 5.00 before its insert is refused: the
    stock is 5.00 with one line of 10.00. *)
Example duplicate_item_through_create :
  let '(outcome, db') :=
    TransactionSerializer_create
      (Some (mkRequest (Some (User.mk 7 false)) "POST")) "purchase"
      [DetailData.mk widget 1000 None; DetailData.mk widget 500 None] db_0 in
  outcome = inl IntegrityError ∧
  stock db' 1 = Some 500 ∧
  ledger_lines db' 1 = [("purchase", 1000)].
Proof. by vm_compute. Qed.

(** C2.  Creating a line of quantity [q] greater than the product's
    [current_stock] under a saved transaction of type sale fails with the
    validation error that carries the available quantity, which is the stock
    the database holds, and the database it leaves is the one it found: the
    product's stock and its ledger lines are unchanged. *)
Theorem sale_over_stock_is_rejected (db : DB) (self : TransactionDetail.t) :
  TransactionDetail.pk self = None →
  related_loaded db self →
  truthy (TransactionDetail.transaction_id self) = true →
  Transaction.transaction_type (TransactionDetail.transaction self) = "sale" →
  Product.current_stock (TransactionDetail.product self)
    < TransactionDetail.quantity self →
  let pid := Product.id (TransactionDetail.product self) in
  let '(outcome, db') := TransactionDetail_save self db in
  (∃ available,
     outcome = inl (ValidationError (TransactionDetail.product self)
                      available (TransactionDetail.quantity self)) ∧
     stock db pid = Some available) ∧
  db' = db ∧
  stock db' pid = stock db pid ∧
  ledger_lines db' pid = ledger_lines db pid.
Proof.
  intros Hpk Hload Hsaved Hty Hlt pid.
  destruct (related_loaded_inv _ _ Hload) as (_ & _ & prow & _ & _ & _ & Hp & Hs & _).
  rewrite save_new_eq by done.
  unfold TransactionDetail_clean. rewrite Hsaved, Hty. simpl.
  rewrite (proj2 (Z.ltb_lt _ _) Hlt).
  split; [|done]. eexists. split; [reflexivity|].
  unfold stock, pid. by rewrite Hp, Hs.
Qed.

Lemma sale_over_stock_is_rejected_witness :
  let '(outcome, db') := TransactionDetail_save line_b db_1 in
  (∃ available,
     outcome = inl (ValidationError widget_1 available 1500) ∧
     stock db_1 1 = Some available) ∧
  db' = db_1 ∧
  stock db' 1 = stock db_1 1 ∧
  ledger_lines db' 1 = ledger_lines db_1 1.
Proof.
  apply (sale_over_stock_is_rejected db_1 line_b).
  - reflexivity.
  - split; [by exists 2|by vm_compute].
  - reflexivity.
  - reflexivity.
  - vm_compute. reflexivity.
Defined.

(** Only a line under a sale can fail [clean]. *)
Lemma clean_incoming_ok self :
  str_in (Transaction.transaction_type (TransactionDetail.transaction self))
         ["sale"] = false →
  TransactionDetail_clean self = inr tt.
Proof.
  intros H. unfold TransactionDetail_clean. rewrite H.
  by destruct (negb _).
Qed.

(** C3.  A successful creation moves the product's stock by exactly [+Q]
    under a purchase, return or adjustment and by exactly [-Q] under a sale.
    A purchase line passes the stock check whatever the stock is, [save]
    never answers it with a validation error, and it is created, with the
    stock raised by exactly [Q], whenever its (transaction, product) pair is
    not in the ledger yet. *)
Theorem creation_adjusts_stock (db : DB) (self : TransactionDetail.t) :
  TransactionDetail.pk self = None →
  related_loaded db self →
  0 < TransactionDetail.quantity self →
  let pid := Product.id (TransactionDetail.product self) in
  let ty := Transaction.transaction_type (TransactionDetail.transaction self) in
  let Q := TransactionDetail.quantity self in
  ∃ s, stock db pid = Some s ∧
    (∀ k db', TransactionDetail_save self db = (inr k, db') →
       (ty ∈ ["purchase"; "return"; "adjustment"] → stock db' pid = Some (s + Q)) ∧
       (ty = "sale" → stock db' pid = Some (s - Q))) ∧
    (ty = "purchase" →
       TransactionDetail_clean self = inr tt ∧
       (∀ p a r db', TransactionDetail_save self db
                       ≠ (inl (ValidationError p a r), db')) ∧
       (∀ tid, TransactionDetail.transaction_id self = Some tid →
          unique_transaction_product_violated None (row_of self tid) (details db)
            = false →
          ∃ k db', TransactionDetail_save self db = (inr k, db') ∧
                   stock db' pid = Some (s + Q))).
Proof.
  intros Hpk Hload HQ pid ty Q.
  destruct (related_loaded_inv _ _ Hload)
    as (tid & trow & prow & Htid & Htr & Hty & Hp & Hs & _).
  exists (Product.current_stock prow).
  assert (∀ k db', TransactionDetail_save self db = (inr k, db') →
            stock db' pid = Some (Product.current_stock (product_after_save self)))
    as Hstock.
  { intros k db' Hsave.
    destruct (save_new_ok_inv _ _ _ _ Hpk Hsave) as (? & _ & _ & _ & _ & ->).
    unfold stock, pid. simpl. by rewrite lookup_insert_eq. }
  split; [by unfold stock, pid; rewrite Hp|]. split.
  - intros k db' Hsave. rewrite (Hstock _ _ Hsave), product_after_save_stock.
    rewrite Hs. subst ty Q. split.
    + intros Hin. unfold str_in. by rewrite bool_decide_true.
    + intros Hsale. rewrite Hsale. reflexivity.
  - intros Hpur.
    assert (TransactionDetail_clean self = inr tt) as Hclean.
    { apply clean_incoming_ok. subst ty. by rewrite Hpur. }
    split; [done|]. split.
    + intros p a r db' Hsave.
      destruct (save_new_rejected_inv _ _ _ _ _ _ Hpk Hsave) as [_ Hc]. congruence.
    + intros tid' Htid' Huniq.
      assert (tid' = tid) as -> by congruence.
      eexists _, _. split.
      * rewrite save_new_eq, Hclean, Model_save_new_eq by done. rewrite Htid.
        simpl. rewrite bool_decide_false by congruence. rewrite Huniq. reflexivity.
      * unfold stock, pid. simpl. rewrite lookup_insert_eq. simpl.
        rewrite product_after_save_stock. subst ty. rewrite Hpur, Hs. reflexivity.
Qed.

Lemma creation_adjusts_stock_witness :
  ∃ s, stock db_0 1 = Some s ∧
    (∀ k db', TransactionDetail_save line_a db_0 = (inr k, db') →
       ("purchase" ∈ ["purchase"; "return"; "adjustment"] →
        stock db' 1 = Some (s + 1000)) ∧
       ("purchase" = "sale" → stock db' 1 = Some (s - 1000))) ∧
    ("purchase" = "purchase" →
       TransactionDetail_clean line_a = inr tt ∧
       (∀ p a r db', TransactionDetail_save line_a db_0
                       ≠ (inl (ValidationError p a r), db')) ∧
       (∀ tid, TransactionDetail.transaction_id line_a = Some tid →
          unique_transaction_product_violated None (row_of line_a tid) (details db_0)
            = false →
          ∃ k db', TransactionDetail_save line_a db_0 = (inr k, db') ∧
                   stock db' 1 = Some (s + 1000))).
Proof.
  apply (creation_adjusts_stock db_0 line_a).
  - reflexivity.
  - split; [by exists 1|reflexivity].
  - vm_compute. reflexivity.
Defined.

Example creation_adjusts_stock_sale :
  TransactionDetail_save line_c db_1 = (inr 2, db_2) ∧
  stock db_1 1 = Some 1000 ∧ stock db_2 1 = Some 600.
Proof. by vm_compute. Qed.

(** C10.  With stock [s > 0], a sale line of quantity exactly [s] passes
    the stock check, which is strict, is created when its (transaction,
    product) pair is not in the ledger yet, and leaves the stock at zero. *)
Theorem sale_of_whole_stock_succeeds (db : DB) (self : TransactionDetail.t) (tid : Z) :
  TransactionDetail.pk self = None →
  related_loaded db self →
  TransactionDetail.transaction_id self = Some tid →
  unique_transaction_product_violated None (row_of self tid) (details db) = false →
  Transaction.transaction_type (TransactionDetail.transaction self) = "sale" →
  0 < Product.current_stock (TransactionDetail.product self) →
  TransactionDetail.quantity self
    = Product.current_stock (TransactionDetail.product self) →
  let pid := Product.id (TransactionDetail.product self) in
  stock db pid = Some (TransactionDetail.quantity self) ∧
  TransactionDetail_clean self = inr tt ∧
  ∃ k db', TransactionDetail_save self db = (inr k, db') ∧
           stock db' pid = Some 0.
Proof.
  intros Hpk Hload Htid Huniq Hty Hpos Hq pid.
  destruct (related_loaded_inv _ _ Hload)
    as (tid' & trow & prow & Htid' & Htr & _ & Hp & Hs & _).
  assert (tid' = tid) as -> by congruence.
  assert (TransactionDetail_clean self = inr tt) as Hclean.
  { unfold TransactionDetail_clean. rewrite Hty, Hq, Z.ltb_irrefl.
    by destruct (negb _). }
  split; [by unfold stock, pid; rewrite Hp, Hq, Hs|]. split; [done|].
  eexists _, _. split.
  - rewrite save_new_eq, Hclean, Model_save_new_eq by done. rewrite Htid.
    simpl. rewrite bool_decide_false by congruence. rewrite Huniq. reflexivity.
  - unfold stock, pid. simpl. rewrite lookup_insert_eq. simpl.
    rewrite product_after_save_stock, Hty, Hq. simpl. f_equal. lia.
Qed.

Lemma sale_of_whole_stock_succeeds_witness :
  stock db_1 1 = Some 1000 ∧
  TransactionDetail_clean line_d = inr tt ∧
  ∃ k db', TransactionDetail_save line_d db_1 = (inr k, db') ∧
           stock db' 1 = Some 0.
Proof.
  apply (sale_of_whole_stock_succeeds db_1 line_d 2).
  - reflexivity.
  - split; [by exists 2|by vm_compute].
  - reflexivity.
  - by vm_compute.
  - reflexivity.
  - vm_compute. reflexivity.
  - reflexivity.
Defined.

(** C8.  Saving an instance of a stored line (its quantity changed, or any
    other field) writes the line's row and nothing else: the products table,
    so every product's [current_stock], is what it was before the update. *)
Theorem update_leaves_stock (db : DB) (k : Z) (line self : TransactionDetail.t)
    (r : exn + Z) (db' : DB) :
  TransactionDetail_get db k = Some line →
  k ≠ 0 →
  TransactionDetail.pk self = Some k →
  TransactionDetail_save self db = (r, db') →
  products db' = products db ∧
  (∀ pid, stock db' pid = stock db pid) ∧
  (∀ k', r = inr k' →
     k' = k ∧
     DetailRow.quantity <$> details db' !! k = Some (TransactionDetail.quantity self)).
Proof.
  intros _ Hk Hpk Hsave.
  rewrite save_existing_eq in Hsave
    by (rewrite Hpk; simpl; by rewrite (proj2 (Z.eqb_neq _ _) Hk)).
  unfold TransactionDetail_Model_save in Hsave. rewrite Hpk in Hsave.
  destruct (TransactionDetail.transaction_id self) as [tid|].
  - unfold mbind, ORM_bind, get in Hsave.
    destruct (bool_decide _); [by injection Hsave as <- <-|].
    destruct (unique_transaction_product_violated _ _ _);
      [by injection Hsave as <- <-|].
    injection Hsave as <- <-. simpl.
    split; [done|]. split; [done|]. intros k' [= <-].
    split; [done|]. by rewrite lookup_insert_eq.
  - by injection Hsave as <- <-.
Qed.

Lemma update_leaves_stock_witness :
  products (TransactionDetail_save line_a_edited db_2).2 = products db_2 ∧
  (∀ pid, stock (TransactionDetail_save line_a_edited db_2).2 pid = stock db_2 pid) ∧
  (∀ k', (TransactionDetail_save line_a_edited db_2).1 = inr k' →
     k' = 1 ∧
     DetailRow.quantity <$> details (TransactionDetail_save line_a_edited db_2).2 !! 1
       = Some 2500).
Proof.
  apply (update_leaves_stock db_2 1 line_a_stored line_a_edited).
  - by vm_compute.
  - lia.
  - reflexivity.
  - by destruct (TransactionDetail_save line_a_edited db_2).
Defined.

Example update_is_accepted :
  (TransactionDetail_save line_a_edited db_2).1 = inr 1 ∧
  stock (TransactionDetail_save line_a_edited db_2).2 1 = Some 600 ∧
  signed_sum (TransactionDetail_save line_a_edited db_2).2 1 = 2100.
Proof. by vm_compute. Qed.

(** C9, counterexample.  The purchase line of the example has no price; the
    widget's price is 2.50; the stored line has no price. *)
Lemma price_defaults_to_product_fails : ¬ price_defaults_to_product.
Proof.
  intros H.
  destruct (H db_0 line_a 1 db_1) as [_ Habsent].
  - reflexivity.
  - split; [by exists 1|reflexivity].
  - by vm_compute.
  - destruct Habsent as [Hrow _]; [reflexivity|].
    vm_compute in Hrow. discriminate Hrow.
Qed.

(** C9, amended.  On every creation, a supplied [unit_price] overwrites
    the product's stored [unit_price]; an absent one leaves the product's
    stored [unit_price] unchanged, and the line is stored without a price. *)
Theorem creation_price_effect (db : DB) (self : TransactionDetail.t) (k : Z) (db' : DB) :
  TransactionDetail.pk self = None →
  related_loaded db self →
  TransactionDetail_save self db = (inr k, db') →
  let pid := Product.id (TransactionDetail.product self) in
  (∀ v, TransactionDetail.unit_price self = Some v →
     price db' pid = Some v ∧
     DetailRow.unit_price <$> details db' !! k = Some (Some v)) ∧
  (TransactionDetail.unit_price self = None →
     DetailRow.unit_price <$> details db' !! k = Some None ∧
     price db' pid = price db pid).
Proof.
  intros Hpk Hload Hsave pid.
  destruct (save_new_ok_inv _ _ _ _ Hpk Hsave) as (tid & _ & _ & _ & _ & ->).
  destruct (related_loaded_inv _ _ Hload) as (_ & _ & prow & _ & _ & _ & Hp & _ & Hpr).
  unfold price, pid. simpl. rewrite !lookup_insert_eq. simpl.
  rewrite product_after_save_price. split.
  - intros v ->. done.
  - intros ->. by rewrite Hp, Hpr.
Qed.

Lemma creation_price_effect_witness :
  (∀ v, Some 999 = Some v →
     price (TransactionDetail_save line_e db_0).2 2 = Some v ∧
     DetailRow.unit_price <$> details (TransactionDetail_save line_e db_0).2 !! 1
       = Some (Some v)) ∧
  (Some 999 = None →
     DetailRow.unit_price <$> details (TransactionDetail_save line_e db_0).2 !! 1
       = Some None ∧
     price (TransactionDetail_save line_e db_0).2 2 = price db_0 2).
Proof.
  apply (creation_price_effect db_0 line_e 1 (TransactionDetail_save line_e db_0).2).
  - reflexivity.
  - split; [by exists 1|reflexivity].
  - by vm_compute.
Defined.

(** Deleting a stored line: no check, the stock moves back by the line's
    quantity and the row goes. *)
Lemma delete_stored_line (db : DB) (k : Z) (line : TransactionDetail.t) :
  TransactionDetail_get db k = Some line →
  let pid := Product.id (TransactionDetail.product line) in
  let ty := Transaction.transaction_type (TransactionDetail.transaction line) in
  let Q := TransactionDetail.quantity line in
  ∃ s db',
    stock db pid = Some s ∧
    TransactionDetail_delete line db = (inr tt, db') ∧
    details db' = delete k (details db) ∧
    (ty ∈ ["purchase"; "return"; "adjustment"] → stock db' pid = Some (s - Q)) ∧
    (ty = "sale" → stock db' pid = Some (s + Q)).
Proof.
  intros Hget pid ty Q.
  destruct (TransactionDetail_get_inv _ _ _ Hget)
    as (r & trow & prow & Hr & Htr & Hp & ->).
  subst pid ty Q. simpl.
  eexists (Product.current_stock prow), _.
  split; [by unfold stock; rewrite Hp|].
  split; [by apply (delete_eq _ _ k)|]. split; [done|].
  unfold stock. simpl. rewrite lookup_insert_eq. simpl.
  rewrite product_after_delete_stock. simpl. split.
  - intros Hin. unfold str_in. by rewrite bool_decide_true.
  - intros ->. reflexivity.
Qed.

(** A line deleted right after its creation: stock and ledger are back. *)
Lemma delete_after_create (db : DB) (self : TransactionDetail.t) (k : Z) (db1 : DB) :
  TransactionDetail.pk self = None →
  related_loaded db self →
  TransactionDetail_save self db = (inr k, db1) →
  let pid := Product.id (TransactionDetail.product self) in
  ∃ line db2,
    TransactionDetail_get db1 k = Some line ∧
    TransactionDetail_delete line db1 = (inr tt, db2) ∧
    stock db2 pid = stock db pid ∧
    details db2 = details db.
Proof.
  intros Hpk Hload Hsave pid.
  destruct (save_new_ok_inv _ _ _ _ Hpk Hsave) as (tid & _ & Htid & _ & Hk & ->).
  destruct (related_loaded_inv _ _ Hload)
    as (tid' & trow & prow & Htid' & Htr & Hty & Hp & Hs & _).
  assert (tid' = tid) as -> by congruence.
  eexists _, _. split; [|split].
  - unfold TransactionDetail_get, Transaction_get, Product_get. simpl.
    rewrite lookup_insert_eq. simpl. rewrite Htr. simpl.
    rewrite lookup_insert_eq. simpl. reflexivity.
  - by apply (delete_eq _ _ k).
  - simpl. split.
    + unfold stock, pid. simpl. rewrite !lookup_insert_eq, Hp. simpl.
      rewrite product_after_delete_stock. simpl.
      rewrite product_after_save_stock, Hty, Hs.
      destruct (str_in _ _); f_equal; lia.
    + rewrite delete_insert_eq. apply delete_id. rewrite Hk. apply new_pk_fresh.
Qed.

(** A line whose quantity, product and transaction type are as at its
    creation: whatever else happened in between, its deletion moves the stock
    back by what the creation had moved it. *)
Lemma delete_unedited_line (db : DB) (self : TransactionDetail.t) (k : Z)
    (db1 db2 : DB) (line : TransactionDetail.t) :
  TransactionDetail.pk self = None →
  related_loaded db self →
  TransactionDetail_save self db = (inr k, db1) →
  TransactionDetail_get db2 k = Some line →
  TransactionDetail.quantity line = TransactionDetail.quantity self →
  Transaction.transaction_type (TransactionDetail.transaction line)
    = Transaction.transaction_type (TransactionDetail.transaction self) →
  Product.id (TransactionDetail.product line)
    = Product.id (TransactionDetail.product self) →
  let pid := Product.id (TransactionDetail.product self) in
  ∃ s0 s1 s2 db3,
    stock db pid = Some s0 ∧
    stock db1 pid = Some s1 ∧
    stock db2 pid = Some s2 ∧
    TransactionDetail_delete line db2 = (inr tt, db3) ∧
    details db3 = delete k (details db2) ∧
    stock db3 pid = Some (s2 - (s1 - s0)).
Proof.
  intros Hpk Hload Hsave Hget Hq Hty' Hpid pid.
  destruct (save_new_ok_inv _ _ _ _ Hpk Hsave) as (tid & _ & Htid & _ & Hk & ->).
  destruct (related_loaded_inv _ _ Hload)
    as (tid' & trow & prow & _ & _ & Hty & Hp & Hs & _).
  destruct (TransactionDetail_get_inv _ _ _ Hget)
    as (r & trow2 & prow2 & Hr & Htr2 & Hp2 & ->).
  simpl in Hq, Hty', Hpid.
  exists (Product.current_stock prow),
         (Product.current_stock (product_after_save self)),
         (Product.current_stock prow2).
  eexists.
  split; [by unfold stock, pid; rewrite Hp|].
  split; [by unfold stock, pid; simpl; rewrite lookup_insert_eq|].
  split; [by unfold stock, pid; rewrite <-Hpid, Hp2|].
  split; [by apply (delete_eq _ _ k)|]. split; [done|].
  unfold stock, pid. simpl. rewrite <-Hpid, lookup_insert_eq. simpl.
  rewrite product_after_delete_stock. simpl.
  rewrite product_after_save_stock, Hty', Hq, Hs.
  destruct (str_in _ _); f_equal; lia.
Qed.

(** C4 as stated does not hold.  The purchase line of 10.00 widgets is
    created from stock 0 (stock 10.00), its quantity is edited to 25.00
    (stock still 10.00), and its deletion takes 25.00 off: the stock is
    -15.00, not the 0 that reversing the creation would give. *)
Lemma deletion_reverses_creation_fails : ¬ deletion_reverses_creation.
Proof.
  intros H.
  destruct (H db_0 line_a 1 db_1 db_raised line_a_raised db_lowered)
    as (s0 & s1 & s2 & s3 & H0 & H1 & H2 & H3 & Heq).
  - reflexivity.
  - split; [by exists 1|reflexivity].
  - by vm_compute.
  - apply rtc_once.
    apply (edit_line db_1 1 (TransactionDetail.mk (Some 1) purchase_1 widget_1 1000 None)
             line_a_raised (inr 1) db_raised);
      [by vm_compute|done|reflexivity|by vm_compute].
  - by vm_compute.
  - by vm_compute.
  - vm_compute in H0, H1, H2, H3.
    injection H0 as <-. injection H1 as <-. injection H2 as <-. injection H3 as <-.
    discriminate Heq.
Qed.

(** The edits of the counterexample and of the transaction's type, run: after
    the quantity is raised the deletion leaves -15.00; after the purchase
    transaction is turned into a sale the deletion, reading the type at
    deletion time, adds the 10.00 again and leaves 20.00. *)
Example deletion_after_edits :
  TransactionDetail_save line_a_raised db_1 = (inr 1, db_raised) ∧
  stock db_raised 1 = Some 1000 ∧
  TransactionDetail_get db_raised 1 = Some line_a_raised ∧
  TransactionDetail_delete line_a_raised db_raised = (inr tt, db_lowered) ∧
  stock db_lowered 1 = Some (-1500) ∧
  stock db_retyped 1 = Some 1000 ∧
  (line ← TransactionDetail_get db_retyped 1 ;
   stock (TransactionDetail_delete line db_retyped).2 1) = Some 2000.
Proof. by vm_compute. Qed.

(** C4, amended.  Deleting a stored line moves the stock of its product by
    the quantity the line now stores, under the type its transaction now has:
    down for a purchase, return or adjustment line and up for a sale line,
    with no check.  For a line whose quantity, product and transaction type
    are as at its creation this takes back exactly what the creation applied,
    whatever else was done in between, and a line deleted right after its
    creation leaves stock and ledger as before the creation.  Nothing guards
    the result: from stock 0, a purchase of 10 gives 10, a sale of 15 is
    rejected and leaves 10, a sale of 4 gives 6, and deleting the purchase
    line gives -4. *)
Theorem deletion_reverses_unedited_contribution :
  (∀ db k line,
     TransactionDetail_get db k = Some line →
     let pid := Product.id (TransactionDetail.product line) in
     let ty := Transaction.transaction_type (TransactionDetail.transaction line) in
     let Q := TransactionDetail.quantity line in
     ∃ s db',
       stock db pid = Some s ∧
       TransactionDetail_delete line db = (inr tt, db') ∧
       details db' = delete k (details db) ∧
       (ty ∈ ["purchase"; "return"; "adjustment"] → stock db' pid = Some (s - Q)) ∧
       (ty = "sale" → stock db' pid = Some (s + Q))) ∧
  (∀ db self k db1 db2 line,
     TransactionDetail.pk self = None →
     related_loaded db self →
     TransactionDetail_save self db = (inr k, db1) →
     TransactionDetail_get db2 k = Some line →
     TransactionDetail.quantity line = TransactionDetail.quantity self →
     Transaction.transaction_type (TransactionDetail.transaction line)
       = Transaction.transaction_type (TransactionDetail.transaction self) →
     Product.id (TransactionDetail.product line)
       = Product.id (TransactionDetail.product self) →
     let pid := Product.id (TransactionDetail.product self) in
     ∃ s0 s1 s2 db3,
       stock db pid = Some s0 ∧
       stock db1 pid = Some s1 ∧
       stock db2 pid = Some s2 ∧
       TransactionDetail_delete line db2 = (inr tt, db3) ∧
       details db3 = delete k (details db2) ∧
       stock db3 pid = Some (s2 - (s1 - s0))) ∧
  (∀ db self k db1,
     TransactionDetail.pk self = None →
     related_loaded db self →
     TransactionDetail_save self db = (inr k, db1) →
     let pid := Product.id (TransactionDetail.product self) in
     ∃ line db2,
       TransactionDetail_get db1 k = Some line ∧
       TransactionDetail_delete line db1 = (inr tt, db2) ∧
       stock db2 pid = stock db pid ∧
       details db2 = details db) ∧
  (stock db_0 1 = Some 0 ∧
   TransactionDetail_save line_a db_0 = (inr 1, db_1) ∧
   stock db_1 1 = Some 1000 ∧
   TransactionDetail_save line_b db_1
     = (inl (ValidationError widget_1 1000 1500), db_1) ∧
   TransactionDetail_save line_c db_1 = (inr 2, db_2) ∧
   stock db_2 1 = Some 600 ∧
   TransactionDetail_get db_2 1 = Some line_a_stored ∧
   TransactionDetail_delete line_a_stored db_2 = (inr tt, db_3) ∧
   stock db_3 1 = Some (-400)).
Proof.
  split; [exact delete_stored_line|]. split; [exact delete_unedited_line|].
  split; [exact delete_after_create|].
  by vm_compute.
Qed.

Lemma deletion_reverses_unedited_contribution_witness :
  (∃ s db',
     stock db_2 1 = Some s ∧
     TransactionDetail_delete line_a_stored db_2 = (inr tt, db') ∧
     details db' = delete 1 (details db_2) ∧
     ("purchase" ∈ ["purchase"; "return"; "adjustment"] →
      stock db' 1 = Some (s - 1000)) ∧
     ("purchase" = "sale" → stock db' 1 = Some (s + 1000))) ∧
  (∃ s0 s1 s2 db3,
     stock db_0 1 = Some s0 ∧
     stock db_1 1 = Some s1 ∧
     stock db_2 1 = Some s2 ∧
     TransactionDetail_delete line_a_stored db_2 = (inr tt, db3) ∧
     details db3 = delete 1 (details db_2) ∧
     stock db3 1 = Some (s2 - (s1 - s0))) ∧
  (∃ line db2,
     TransactionDetail_get db_2 2 = Some line ∧
     TransactionDetail_delete line db_2 = (inr tt, db2) ∧
     stock db2 1 = stock db_1 1 ∧
     details db2 = details db_1).
Proof.
  split; [|split].
  - apply (proj1 deletion_reverses_unedited_contribution db_2 1 line_a_stored).
    by vm_compute.
  - apply (proj1 (proj2 deletion_reverses_unedited_contribution)
             db_0 line_a 1 db_1 db_2 line_a_stored).
    + reflexivity.
    + split; [by exists 1|reflexivity].
    + by vm_compute.
    + by vm_compute.
    + reflexivity.
    + reflexivity.
    + reflexivity.
  - apply (proj1 (proj2 (proj2 deletion_reverses_unedited_contribution))
             db_1 line_c 2 db_2).
    + reflexivity.
    + split; [by exists 3|by vm_compute].
    + by vm_compute.
Defined.

(** The cascade removes the transaction and its lines, and writes no
    product. *)
Lemma Transaction_delete_cascade (db : DB) (tr : Transaction.t) (tid : Z) :
  Transaction.id tr = Some tid →
  ∃ db',
    Transaction_delete tr db = (inr tt, db') ∧
    products db' = products db ∧
    transactions db' !! tid = None ∧
    (∀ k r, details db' !! k = Some r ↔
            details db !! k = Some r ∧ DetailRow.transaction_id r ≠ tid).
Proof.
  intros Hid. unfold Transaction_delete. rewrite Hid.
  eexists. split; [reflexivity|]. simpl.
  split; [done|]. split; [apply lookup_delete_eq|].
  intros k r. by rewrite map_lookup_filter_Some.
Qed.

(** C5 at the failing input.  The creator deletes the purchase transaction of
    the example: the transaction and its line are gone and the widget's stock
    is still the 10.00 that the line's creation gave it, not the 0 it was
    before. *)
Theorem cascade_leaves_stock :
  let request := mkRequest (Some (User.mk 7 false)) "POST" in
  let '(response, msgs, db') := transaction_delete request 1 db_1 in
  stock db_0 1 = Some 0 ∧
  stock db_1 1 = Some 1000 ∧
  ledger_lines db_1 1 = [("purchase", 1000)] ∧
  response = redirect "transaction_list" ∧
  msgs = [messages_success "Transaction deleted successfully"] ∧
  transactions db' !! 1 = None ∧
  details db' = ∅ ∧
  stock db' 1 = Some 1000 ∧
  signed_sum db' 1 = 0.
Proof. by vm_compute. Qed.

(** C6.  A POST by a user who is neither staff nor the transaction's
    creator is answered with the permission error and leaves the database as
    it was; a POST by a staff user or by the creator deletes the transaction
    and its lines. *)
Theorem transaction_delete_authorization
    (request : HttpRequest) (pk : Z) (db : DB) (u : User.t) (tr : Transaction.t) :
  user request = Some u →
  method request = "POST" →
  Transaction_get db pk = Some tr →
  (User.is_staff u = false → Transaction.created_by tr ≠ Some (User.id u) →
     transaction_delete request pk db =
       (redirect "transaction_list",
        [messages_error "You do not have permission to delete this transaction"],
        db)) ∧
  (User.is_staff u = true ∨ Transaction.created_by tr = Some (User.id u) →
     ∃ db',
       transaction_delete request pk db =
         (redirect "transaction_list",
          [messages_success "Transaction deleted successfully"], db') ∧
       transactions db' !! pk = None ∧
       (∀ k r, details db' !! k = Some r → DetailRow.transaction_id r ≠ pk)).
Proof.
  intros Hu Hm Hget. unfold transaction_delete. rewrite Hu, Hm, Hget. simpl.
  split.
  - intros -> Hne. simpl. by rewrite bool_decide_false.
  - intros Hauth.
    assert (User.is_staff u
            || bool_decide (Transaction.created_by tr = Some (User.id u)) = true)
      as ->.
    { destruct Hauth as [->| ->]; [done|].
      rewrite bool_decide_true by done. apply orb_true_r. }
    assert (Transaction.id tr = Some pk) as Hid.
    { unfold Transaction_get in Hget.
      destruct (transactions db !! pk); [|done]. by injection Hget as <-. }
    destruct (Transaction_delete_cascade db tr pk Hid) as (db' & -> & _ & Ht & Hd).
    exists db'. simpl. split; [done|]. split; [done|].
    intros k r Hr. by apply Hd in Hr as [_ ?].
Qed.

Lemma transaction_delete_authorization_witness :
  (false = false → Some 7 ≠ Some 9 →
     transaction_delete (mkRequest (Some (User.mk 9 false)) "POST") 1 db_2 =
       (redirect "transaction_list",
        [messages_error "You do not have permission to delete this transaction"],
        db_2)) ∧
  (false = true ∨ Some 7 = Some 9 →
     ∃ db',
       transaction_delete (mkRequest (Some (User.mk 9 false)) "POST") 1 db_2 =
         (redirect "transaction_list",
          [messages_success "Transaction deleted successfully"], db') ∧
       transactions db' !! 1 = None ∧
       (∀ k r, details db' !! k = Some r → DetailRow.transaction_id r ≠ 1)).
Proof.
  apply (transaction_delete_authorization
           (mkRequest (Some (User.mk 9 false)) "POST") 1 db_2
           (User.mk 9 false) purchase_1); reflexivity.
Defined.

Example staff_may_delete :
  transaction_delete (mkRequest (Some (User.mk 9 true)) "POST") 3 db_2
    = (redirect "transaction_list",
       [messages_success "Transaction deleted successfully"],
       (Transaction_delete sale_3 db_2).2) ∧
  ledger_lines (Transaction_delete sale_3 db_2).2 1 = [("purchase", 1000)].
Proof. by vm_compute. Qed.

(** Any other request leaves the database as it was. *)
Lemma transaction_delete_not_post (request : HttpRequest) (pk : Z) (db : DB) :
  method request ≠ "POST" → (transaction_delete request pk db).2 = db.
Proof.
  intros Hm. unfold transaction_delete.
  destruct (user request); [|done].
  destruct (Transaction_get db pk); [|done].
  destruct (String.eqb_spec (method request) "POST"); done.
Qed.

Lemma Zsum_Case_When_in (types : list string) (lines : list (string * Z)) :
  Zsum (Case_When_in types <$> (Some <$> lines))
    = Zsum ((filter (λ l, l.1 ∈ types) lines).*2).
Proof.
  induction lines as [|[ty q] lines IH]; [done|].
  rewrite filter_cons. cbn [fmap list_fmap Zsum foldr Case_When_in fst].
  fold (Zsum (Case_When_in types <$> (Some <$> lines))). rewrite IH.
  unfold str_in. case_bool_decide; case_decide; try done; simpl; lia.
Qed.

Lemma Zsum_Case_When_eq (ty : string) (lines : list (string * Z)) :
  Zsum (Case_When_eq ty <$> (Some <$> lines))
    = Zsum ((filter (λ l, l.1 = ty) lines).*2).
Proof.
  induction lines as [|[ty' q] lines IH]; [done|].
  rewrite filter_cons. cbn [fmap list_fmap Zsum foldr Case_When_eq fst].
  fold (Zsum (Case_When_eq ty <$> (Some <$> lines))). rewrite IH.
  destruct (String.eqb_spec ty' ty); case_decide; try done; simpl; lia.
Qed.

Lemma filter_singleton_sale (lines : list (string * Z)) :
  filter (λ l, l.1 ∈ ["sale"]) lines = filter (λ l, l.1 = "sale") lines.
Proof.
  apply list_filter_iff. intros l. rewrite elem_of_cons, elem_of_nil. tauto.
Qed.

Lemma Sum_nonempty (l : list Z) : l ≠ [] → Sum l = Some (Zsum l).
Proof. by destruct l. Qed.

(** A product none of whose rows is in the details table has no lines. *)
Lemma ledger_lines_none (db : DB) (pid : Z) :
  (∀ k r, details db !! k = Some r → DetailRow.product_id r ≠ pid) →
  ledger_lines db pid = [].
Proof.
  intros Hnone. unfold ledger_lines.
  assert (Forall (λ r, DetailRow.product_id r ≠ pid) (map_to_list (details db)).*2)
    as Hall.
  { apply Forall_fmap, Forall_forall. intros [k r] Hin.
    apply elem_of_map_to_list in Hin. by eapply Hnone. }
  induction Hall as [|r l Hr _ IH]; [done|].
  csimpl. by rewrite line_of_other, IH.
Qed.

Lemma or_0_Some (v : Z) : or_0 (Some v) = v.
Proof. unfold or_0. by destruct (Z.eqb_spec v 0) as [->|]. Qed.

Lemma annotate_totals (db : DB) (pid : Z) (p : Product.t) :
  total_in (annotate db pid p) = Some (quantity_in (ledger_lines db pid)) ∧
  total_out (annotate db pid p) = Some (quantity_out (ledger_lines db pid)).
Proof.
  unfold annotate, quantity_in, quantity_out. simpl.
  rewrite <-filter_singleton_sale, <-!Zsum_Case_When_in.
  destruct (ledger_lines db pid); [done|]. split; by apply Sum_nonempty.
Qed.

Lemma context_totals (db : DB) (pid : Z) (p : Product.t) :
  products db !! pid = Some p →
  ∃ ctx, ProductStockMovementsView_get_context_data db pid = Some ctx ∧
         ctx_total_in ctx = quantity_in (ledger_lines db pid) ∧
         ctx_total_out ctx = quantity_out (ledger_lines db pid).
Proof.
  intros Hp. unfold ProductStockMovementsView_get_context_data, Product_get.
  rewrite Hp. simpl. eexists. split; [reflexivity|]. simpl.
  unfold quantity_in, quantity_out.
  rewrite <-Zsum_Case_When_in, <-Zsum_Case_When_eq.
  destruct (ledger_lines db pid) as [|l lines']; [done|].
  rewrite !Sum_nonempty by done. by rewrite !or_0_Some.
Qed.

(** C7.  For a product [pid], the report's [total_in] is the sum of the
    quantities of its lines under purchase, return and adjustment
    transactions and [total_out] the sum of those under sale transactions;
    so are the totals of the product's stock-movements view; and for a
    product without lines all four are zero. *)
Theorem report_totals (request : HttpRequest) (db : DB) (pid : Z) (p : Product.t) :
  user request ≠ None →
  products db !! pid = Some p →
  let lines := ledger_lines db pid in
  ∃ a ctx,
    (inventory_report request db).2 !! pid = Some a ∧
    ProductStockMovementsView_get_context_data db pid = Some ctx ∧
    total_in a = Some (quantity_in lines) ∧
    total_out a = Some (quantity_out lines) ∧
    ctx_total_in ctx = quantity_in lines ∧
    ctx_total_out ctx = quantity_out lines ∧
    ((∀ k r, details db !! k = Some r → DetailRow.product_id r ≠ pid) →
       total_in a = Some 0 ∧ total_out a = Some 0 ∧
       ctx_total_in ctx = 0 ∧ ctx_total_out ctx = 0).
Proof.
  intros Hu Hp lines.
  destruct (annotate_totals db pid p) as [Hin Hout].
  destruct (context_totals db pid p Hp) as (ctx & Hctx & Hcin & Hcout).
  exists (annotate db pid p), ctx. subst lines.
  repeat (split; [done|]). split.
  - unfold inventory_report. destruct (user request); [|done]. simpl.
    by rewrite map_lookup_imap, Hp.
  - repeat (split; [done|]).
    intros Hnone. rewrite Hin, Hout, Hcin, Hcout.
    by rewrite ledger_lines_none.
Qed.

Lemma report_totals_witness :
  ∃ a ctx,
    (inventory_report (mkRequest (Some (User.mk 7 false)) "GET") db_2).2 !! 1
      = Some a ∧
    ProductStockMovementsView_get_context_data db_2 1 = Some ctx ∧
    total_in a = Some (quantity_in (ledger_lines db_2 1)) ∧
    total_out a = Some (quantity_out (ledger_lines db_2 1)) ∧
    ctx_total_in ctx = quantity_in (ledger_lines db_2 1) ∧
    ctx_total_out ctx = quantity_out (ledger_lines db_2 1) ∧
    ((∀ k r, details db_2 !! k = Some r → DetailRow.product_id r ≠ 1) →
       total_in a = Some 0 ∧ total_out a = Some 0 ∧
       ctx_total_in ctx = 0 ∧ ctx_total_out ctx = 0).
Proof.
  apply (report_totals (mkRequest (Some (User.mk 7 false)) "GET") db_2 1
           (Product.set_current_stock widget 600)).
  - discriminate.
  - by vm_compute.
Defined.

Example report_db_2 :
  quantity_in (ledger_lines db_2 1) = 1000 ∧
  quantity_out (ledger_lines db_2 1) = 400 ∧
  annotate db_2 2 gadget = mkAnnotated gadget (Some 0) (Some 0) ∧
  ProductStockMovementsView_get_context_data db_2 2 = Some (mkContext [] 0 0).
Proof. by vm_compute. Qed.

(** ** Further properties of the models *)

Lemma signed_sum_frame (db db' : DB) (pid : Z) :
  transactions db' = transactions db →
  details db' = details db →
  signed_sum db' pid = signed_sum db pid.
Proof.
  intros Ht Hd. unfold signed_sum, ledger_lines. rewrite Hd.
  by rewrite (omap_pointwise (line_of db' pid) (line_of db pid))
    by (intros; by apply line_of_frame).
Qed.

(** What [super().save()] does to the tables. *)
Lemma Model_save_tables (self : TransactionDetail.t) (db : DB) :
  let db' := (TransactionDetail_Model_save self db).2 in
  products db' = products db ∧
  transactions db' = transactions db ∧
  (details db' = details db ∨
   ∃ tid,
     (TransactionDetail_Model_save self db).1
       = inr (match TransactionDetail.pk self with
              | Some k => k
              | None => new_pk (details db)
              end) ∧
     TransactionDetail.transaction_id self = Some tid ∧
     is_Some (transactions db !! tid) ∧
     unique_transaction_product_violated
       (TransactionDetail.pk self) (row_of self tid) (details db) = false ∧
     details db' =
       <[match TransactionDetail.pk self with
         | Some k => k
         | None => new_pk (details db)
         end := row_of self tid]> (details db)).
Proof.
  unfold TransactionDetail_Model_save.
  destruct (TransactionDetail.transaction_id self) as [tid|] eqn:Htid;
    [|by repeat split; try left].
  unfold mbind, ORM_bind, get. fold (row_of self tid).
  case_bool_decide as Hfk; [by repeat split; try left|].
  destruct (unique_transaction_product_violated _ _ _) eqn:Hu;
    [by repeat split; try left|].
  simpl. repeat split. right. exists tid.
  repeat split; try done. by apply not_eq_None_Some.
Qed.

(** [save], branch by branch. *)
Lemma save_eq (self : TransactionDetail.t) (db : DB) :
  TransactionDetail_save self db =
    if negb (truthy (TransactionDetail.pk self)) then
      match TransactionDetail_clean self with
      | inl e => (inl e, db)
      | inr _ =>
        TransactionDetail_Model_save self
          (set_products db
             (<[Product.id (TransactionDetail.product self) := product_after_save self]>
                (products db)))
      end
    else TransactionDetail_Model_save self db.
Proof.
  rewrite <-product_after_save_id. unfold TransactionDetail_save.
  destruct (negb (truthy (TransactionDetail.pk self))).
  - unfold mbind, ORM_bind, lift.
    destruct (TransactionDetail_clean self) as [e|[]]; reflexivity.
  - unfold mbind, ORM_bind, mret, ORM_ret.
    by destruct (TransactionDetail_Model_save self db) as [[]].
Qed.

(** What [save] does to the transactions and to the lines, for any
    instance. *)
Lemma save_tables (self : TransactionDetail.t) (db : DB) :
  let db' := (TransactionDetail_save self db).2 in
  transactions db' = transactions db ∧
  (details db' = details db ∨
   ∃ tid,
     TransactionDetail.transaction_id self = Some tid ∧
     is_Some (transactions db !! tid) ∧
     unique_transaction_product_violated
       (TransactionDetail.pk self) (row_of self tid) (details db) = false ∧
     details db' =
       <[match TransactionDetail.pk self with
         | Some k => k
         | None => new_pk (details db)
         end := row_of self tid]> (details db)).
Proof.
  intros db'. subst db'. rewrite save_eq.
  assert (∀ mid, transactions mid = transactions db → details mid = details db →
    let db' := (TransactionDetail_Model_save self mid).2 in
    transactions db' = transactions db ∧
    (details db' = details db ∨
     ∃ tid,
       TransactionDetail.transaction_id self = Some tid ∧
       is_Some (transactions db !! tid) ∧
       unique_transaction_product_violated
         (TransactionDetail.pk self) (row_of self tid) (details db) = false ∧
       details db' =
         <[match TransactionDetail.pk self with
           | Some k => k
           | None => new_pk (details db)
           end := row_of self tid]> (details db))) as Hmid.
  { intros mid Ht Hd.
    destruct (Model_save_tables self mid) as (_ & Ht' & Hd').
    rewrite Ht, Hd in *. split; [done|].
    destruct Hd' as [Hd'|(tid & _ & ? & ? & ? & Hd')]; [by left|right; by exists tid]. }
  destruct (negb _); [|by apply Hmid].
  destruct (TransactionDetail_clean self) as [e|[]]; [by split; [|left]|].
  by apply Hmid.
Qed.

Lemma delete_tables (self : TransactionDetail.t) (db : DB) :
  let db' := (TransactionDetail_delete self db).2 in
  transactions db' = transactions db ∧
  (details db' = details db ∨ ∃ k, details db' = delete k (details db)).
Proof.
  unfold TransactionDetail_delete, TransactionDetail_Model_delete.
  destruct (TransactionDetail.pk self) as [k|]; simpl.
  - split; [done|]. right. by exists k.
  - split; [done|]. by left.
Qed.

(** X1.  A new line whose transaction has not been saved: [clean] skips the
    stock check, so even a sale above the stock passes it; [save] writes the
    adjusted stock to the product's row and only then is refused with
    [ValueError], and no line is stored. *)
Theorem save_under_unsaved_transaction (db : DB) (self : TransactionDetail.t) :
  TransactionDetail.pk self = None →
  TransactionDetail.transaction_id self = None →
  let pid := Product.id (TransactionDetail.product self) in
  let s := Product.current_stock (TransactionDetail.product self) in
  let Q := TransactionDetail.quantity self in
  let '(outcome, db') := TransactionDetail_save self db in
  TransactionDetail_clean self = inr tt ∧
  outcome = inl ValueError ∧
  details db' = details db ∧
  stock db' pid =
    Some (if str_in (Transaction.transaction_type (TransactionDetail.transaction self))
                    ["purchase"; "return"; "adjustment"]
          then s + Q else s - Q).
Proof.
  intros Hpk Htid pid s Q.
  assert (TransactionDetail_clean self = inr tt) as Hclean.
  { unfold TransactionDetail_clean. by rewrite Htid. }
  rewrite save_new_eq, Hclean, Model_save_new_eq by done. rewrite Htid. simpl.
  repeat split; try done.
  unfold stock. simpl. rewrite lookup_insert_eq. simpl.
  by rewrite product_after_save_stock.
Qed.

Lemma save_under_unsaved_transaction_witness :
  let '(outcome, db') := TransactionDetail_save line_unsaved db_1 in
  TransactionDetail_clean line_unsaved = inr tt ∧
  outcome = inl ValueError ∧
  details db' = details db_1 ∧
  stock db' 1 = Some (if str_in "sale" ["purchase"; "return"; "adjustment"]
                      then 1000 + 5000 else 1000 - 5000).
Proof.
  apply (save_under_unsaved_transaction db_1 line_unsaved); reflexivity.
Defined.

(** X2.  A new line whose (transaction, product) pair is already in the
    ledger and that passes [clean]: [save] has written the adjusted stock when
    the insert is refused with [IntegrityError]; the lines are as before, so
    a ledger that was consistent no longer is, unless the quantity is zero. *)
Theorem save_duplicate_pair (db : DB) (self : TransactionDetail.t) (tid : Z) :
  TransactionDetail.pk self = None →
  related_loaded db self →
  TransactionDetail.transaction_id self = Some tid →
  TransactionDetail_clean self = inr tt →
  unique_transaction_product_violated None (row_of self tid) (details db) = true →
  let pid := Product.id (TransactionDetail.product self) in
  let Q := TransactionDetail.quantity self in
  let '(outcome, db') := TransactionDetail_save self db in
  outcome = inl IntegrityError ∧
  details db' = details db ∧
  transactions db' = transactions db ∧
  (∃ s, stock db pid = Some s ∧
        stock db' pid =
          Some (if str_in (Transaction.transaction_type
                             (TransactionDetail.transaction self))
                          ["purchase"; "return"; "adjustment"]
                then s + Q else s - Q)) ∧
  (ledger_consistent db → Q ≠ 0 → ¬ ledger_consistent db').
Proof.
  intros Hpk Hload Htid Hclean Huniq pid Q.
  destruct (related_loaded_inv _ _ Hload)
    as (tid' & trow & prow & Htid' & Htr & _ & Hp & Hs & _).
  assert (tid' = tid) as -> by congruence.
  rewrite save_new_eq, Hclean, Model_save_new_eq by done. rewrite Htid. simpl.
  rewrite bool_decide_false by congruence. rewrite Huniq.
  split; [done|]. split; [done|]. split; [done|]. split.
  - exists (Product.current_stock prow). unfold stock, pid. simpl.
    rewrite Hp, lookup_insert_eq. simpl.
    by rewrite product_after_save_stock, Hs.
  - intros Hcons HQ Hcons'.
    pose proof (Hcons _ _ Hp) as H1. simpl in H1.
    pose proof (Hcons' (Product.id (TransactionDetail.product self))
                  (product_after_save self)) as H2.
    simpl in H2. rewrite lookup_insert_eq in H2. specialize (H2 eq_refl).
    rewrite product_after_save_stock, Hs in H2.
    rewrite (signed_sum_frame db) in H2 by done.
    subst Q. destruct (str_in _ _); lia.
Qed.

Lemma save_duplicate_pair_witness :
  let '(outcome, db') := TransactionDetail_save line_again db_1 in
  outcome = inl IntegrityError ∧
  details db' = details db_1 ∧
  transactions db' = transactions db_1 ∧
  (∃ s, stock db_1 1 = Some s ∧
        stock db' 1 =
          Some (if str_in "purchase" ["purchase"; "return"; "adjustment"]
                then s + 500 else s - 500)) ∧
  (ledger_consistent db_1 → 500 ≠ 0 → ¬ ledger_consistent db').
Proof.
  apply (save_duplicate_pair db_1 line_again 1).
  - reflexivity.
  - split; [by exists 1|by vm_compute].
  - reflexivity.
  - reflexivity.
  - by vm_compute.
Defined.

(** X3.  A line that [save] has created is read back under the key [save]
    returned, which is positive: same transaction, quantity and price, and the
    product with the stock and price that [save] wrote. *)
Theorem save_then_get (db : DB) (self : TransactionDetail.t) (k : Z) (db' : DB) :
  TransactionDetail.pk self = None →
  related_loaded db self →
  TransactionDetail_save self db = (inr k, db') →
  0 < k ∧
  details db !! k = None ∧
  TransactionDetail_get db' k =
    Some (TransactionDetail.mk (Some k)
            (TransactionDetail.transaction self) (product_after_save self)
            (TransactionDetail.quantity self) (TransactionDetail.unit_price self)).
Proof.
  intros Hpk Hload Hsave.
  destruct (save_new_ok_inv _ _ _ _ Hpk Hsave) as (tid & _ & Htid & _ & -> & ->).
  destruct Hload as [[tid' Hget] Hprod].
  assert (tid' = tid) as ->.
  { unfold Transaction_get in Hget. destruct (transactions db !! tid'); [|done].
    injection Hget as Hget. unfold TransactionDetail.transaction_id in Htid.
    rewrite <-Hget in Htid. simpl in Htid. congruence. }
  split; [apply new_pk_pos|]. split; [apply new_pk_fresh|].
  unfold TransactionDetail_get. simpl. rewrite lookup_insert_eq. simpl.
  change (Transaction_get _ tid) with (Transaction_get db tid). rewrite Hget. simpl.
  unfold Product_get. simpl. rewrite lookup_insert_eq. simpl.
  do 2 f_equal. rewrite <-(product_after_save_id self).
  by destruct (product_after_save self).
Qed.

Lemma save_then_get_witness :
  0 < 2 ∧
  details db_1 !! 2 = None ∧
  TransactionDetail_get db_2 2 =
    Some (TransactionDetail.mk (Some 2) sale_3 (product_after_save line_c) 400 None).
Proof.
  apply (save_then_get db_1 line_c 2 db_2).
  - reflexivity.
  - split; [by exists 3|by vm_compute].
  - by vm_compute.
Defined.

Lemma unique_not_violated_inv (pk : option Z) (row : DetailRow.t)
    (m : gmap Z DetailRow.t) (i : Z) (r : DetailRow.t) :
  unique_transaction_product_violated pk row m = false →
  m !! i = Some r →
  Some i ≠ pk →
  DetailRow.transaction_id r = DetailRow.transaction_id row →
  DetailRow.product_id r = DetailRow.product_id row →
  False.
Proof.
  unfold unique_transaction_product_violated. intros Hu Hi Hne Ht Hp.
  apply bool_decide_eq_false in Hu. apply Hu.
  by apply (map_Exists_lookup_2 _ _ i r).
Qed.

(** The check of a stored row against the table it is in passes when the
    check of the new row against the table without it did. *)
Lemma unique_not_violated_stored (row : DetailRow.t) (m : gmap Z DetailRow.t) (k : Z) :
  unique_transaction_product_violated None row m = false →
  unique_transaction_product_violated (Some k) row (<[k := row]> m) = false.
Proof.
  intros Hu. unfold unique_transaction_product_violated.
  apply bool_decide_eq_false. intros (i & r & Hi & Hne & Ht & Hp).
  assert (i ≠ k) as Hik by congruence.
  rewrite lookup_insert_ne in Hi by done.
  by eapply (unique_not_violated_inv None row m i r).
Qed.

(** X4.  Saving again, unchanged, the line that [save] has just created is
    an update that changes nothing: the stock is not applied a second time. *)
Theorem resave_changes_nothing (db : DB) (self : TransactionDetail.t) (k : Z) (db' : DB) :
  TransactionDetail.pk self = None →
  related_loaded db self →
  TransactionDetail_save self db = (inr k, db') →
  ∃ line,
    TransactionDetail_get db' k = Some line ∧
    TransactionDetail_save line db' = (inr k, db').
Proof.
  intros Hpk Hload Hsave.
  destruct (save_new_ok_inv _ _ _ _ Hpk Hsave) as (tid & _ & Htid & Hu & -> & ->).
  destruct (related_loaded_inv _ _ Hload)
    as (tid' & trow & prow & Htid' & Htr & Hty & Hp & _).
  assert (tid' = tid) as -> by congruence.
  eexists. split.
  - unfold TransactionDetail_get, Transaction_get, Product_get. simpl.
    rewrite lookup_insert_eq. simpl. rewrite Htr. simpl.
    rewrite lookup_insert_eq. simpl. reflexivity.
  - rewrite save_existing_eq
      by (simpl; pose proof (new_pk_pos (details db)); destruct (Z.eqb_spec (new_pk (details db)) 0); [lia|done]).
    unfold TransactionDetail_Model_save. simpl.
    unfold mbind, ORM_bind, get. simpl.
    rewrite bool_decide_false by congruence.
    change (DetailRow.mk tid _ _ _) with (row_of self tid).
    rewrite unique_not_violated_stored by done. simpl.
    by rewrite insert_insert_eq.
Qed.

Lemma resave_changes_nothing_witness :
  ∃ line,
    TransactionDetail_get db_2 2 = Some line ∧
    TransactionDetail_save line db_2 = (inr 2, db_2).
Proof.
  apply (resave_changes_nothing db_1 line_c 2 db_2).
  - reflexivity.
  - split; [by exists 3|by vm_compute].
  - by vm_compute.
Defined.

Lemma unique_pairs_sub (db db' : DB) :
  (∀ k r, details db' !! k = Some r → details db !! k = Some r) →
  unique_pairs db → unique_pairs db'.
Proof.
  intros Hsub Hu k1 r1 H1 k2 r2 H2. apply (Hu k1 r1 (Hsub _ _ H1) k2 r2 (Hsub _ _ H2)).
Qed.

Lemma unique_pairs_insert (db db' : DB) (pk : option Z) (k : Z) (row : DetailRow.t) :
  unique_transaction_product_violated pk row (details db) = false →
  k = match pk with Some k => k | None => new_pk (details db) end →
  details db' = <[k := row]> (details db) →
  unique_pairs db → unique_pairs db'.
Proof.
  intros Hv Hk Hd Hu k1 r1 H1 k2 r2 H2 Ht Hp. rewrite Hd in H1, H2.
  assert (∀ i r, i ≠ k → details db !! i = Some r →
            DetailRow.transaction_id r = DetailRow.transaction_id row →
            DetailRow.product_id r = DetailRow.product_id row → False) as Hno.
  { intros i r Hik Hi Ht' Hp'.
    apply (unique_not_violated_inv pk row (details db) i r); try done.
    destruct pk as [k'|]; [|done]. congruence. }
  destruct (decide (k1 = k)) as [->|Hk1], (decide (k2 = k)) as [->|Hk2]; try done.
  - rewrite lookup_insert_eq in H1. rewrite lookup_insert_ne in H2 by done.
    injection H1 as <-. exfalso. by apply (Hno k2 r2).
  - rewrite lookup_insert_eq in H2. rewrite lookup_insert_ne in H1 by done.
    injection H2 as <-. exfalso. by apply (Hno k1 r1).
  - rewrite lookup_insert_ne in H1, H2 by done. by apply (Hu k1 r1 H1 k2 r2 H2).
Qed.

Lemma orm_step_details (db db' : DB) :
  orm_step db db' →
  (∀ k r, details db' !! k = Some r → details db !! k = Some r) ∨
  (∃ pk k row,
     unique_transaction_product_violated pk row (details db) = false ∧
     k = match pk with Some k => k | None => new_pk (details db) end ∧
     is_Some (transactions db !! DetailRow.transaction_id row) ∧
     details db' = <[k := row]> (details db)).
Proof.
  intros [self|self|self|self|self].
  - destruct (save_tables self db) as (_ & [->|(tid & _ & ? & ? & Hd)]); [by left|].
    right. eexists (TransactionDetail.pk self), _, (row_of self tid).
    repeat split; try done.
  - left. destruct (delete_tables self db) as (_ & [->|[k ->]]); [done|].
    intros i r. rewrite lookup_delete_Some. tauto.
  - left. unfold Transaction_save, mbind, ORM_bind, get. by simpl.
  - left. unfold Transaction_delete.
    destruct (Transaction.id self); [|done]. simpl.
    intros i r. rewrite map_lookup_filter_Some. tauto.
  - left. simpl. intros i r. rewrite map_lookup_filter_Some. tauto.
Qed.

(** X5.  No sequence of calls of the model methods ([save] and [delete] of
    a line, of a transaction, and the deletion of a product), with any
    arguments and whether they return or raise, puts two lines with the same
    (transaction, product) pair into the ledger. *)
Theorem unique_pairs_kept (db db' : DB) :
  unique_pairs db → rtc orm_step db db' → unique_pairs db'.
Proof.
  intros Hu Hsteps. induction Hsteps as [db|db db1 db2 Hstep _ IH]; [done|].
  apply IH.
  destruct (orm_step_details _ _ Hstep) as [Hsub|(pk & k & row & Hv & Hk & _ & Hd)].
  - by apply (unique_pairs_sub db).
  - by apply (unique_pairs_insert db db1 pk k row).
Qed.

Lemma unique_pairs_kept_witness :
  unique_pairs (Transaction_delete sale_3 (TransactionDetail_save line_again db_2).2).2.
Proof.
  refine (unique_pairs_kept db_2 _ _ _).
  - apply (bool_decide_unpack _). vm_compute. exact I.
  - eapply rtc_l; [apply (orm_detail_save db_2 line_again)|].
    eapply rtc_l; [apply orm_transaction_delete|]. apply rtc_refl.
Defined.

Lemma orm_step_transactions_exist (db db' : DB) :
  transactions_exist db → orm_step db db' → transactions_exist db'.
Proof.
  intros Hfk [self|self|self|self|self].
  - destruct (save_tables self db) as (Ht & [Hd|(tid & _ & Hsome & _ & Hd)]);
      unfold transactions_exist; rewrite Ht, Hd; [done|].
    apply map_Forall_insert_2; [|done]. by simpl.
  - destruct (delete_tables self db) as (Ht & [Hd|[k Hd]]);
      unfold transactions_exist; rewrite Ht, Hd; [done|].
    by apply map_Forall_delete.
  - unfold Transaction_save, mbind, ORM_bind, get. simpl.
    intros k r Hr. simpl. destruct (Hfk k r Hr) as [tr Htr].
    rewrite lookup_insert. case_decide; eauto.
  - unfold Transaction_delete. destruct (Transaction.id self) as [tid|]; [|done].
    simpl. intros k r [Hr Hne]%map_lookup_filter_Some. simpl in *.
    rewrite lookup_delete_ne by done. by apply (Hfk k r).
  - simpl. intros k r [Hr _]%map_lookup_filter_Some. simpl. by apply (Hfk k r).
Qed.

(** X6.  No sequence of calls of the model methods leaves a line whose
    transaction is not stored: [save] refuses a line under a missing
    transaction, and the deletion of a transaction takes its lines along. *)
Theorem transactions_exist_kept (db db' : DB) :
  transactions_exist db → rtc orm_step db db' → transactions_exist db'.
Proof.
  intros Hfk Hsteps. induction Hsteps as [db|db db1 db2 Hstep _ IH]; [done|].
  apply IH. by apply (orm_step_transactions_exist db).
Qed.

Lemma transactions_exist_kept_witness :
  transactions_exist
    (Transaction_delete sale_3 (TransactionDetail_save line_again db_2).2).2.
Proof.
  refine (transactions_exist_kept db_2 _ _ _).
  - apply (bool_decide_unpack _). vm_compute. exact I.
  - eapply rtc_l; [apply (orm_detail_save db_2 line_again)|].
    eapply rtc_l; [apply orm_transaction_delete|]. apply rtc_refl.
Defined.

(** ** Sums over the lines of a table *)

Lemma lines_sum_empty f : lines_sum f ∅ = 0.
Proof. unfold lines_sum. by rewrite map_to_list_empty. Qed.

Lemma lines_sum_insert f (m : gmap Z DetailRow.t) (k : Z) (r : DetailRow.t) :
  m !! k = None →
  lines_sum f (<[k := r]> m) = Zsum (signed_quantity <$> option_list (f r)) + lines_sum f m.
Proof.
  intros Hk. unfold lines_sum. rewrite (map_to_list_insert _ _ _ Hk). csimpl.
  destruct (f r); unfold Zsum; csimpl; lia.
Qed.

Lemma lines_sum_ext f g (m : gmap Z DetailRow.t) :
  (∀ k r, m !! k = Some r → f r = g r) → lines_sum f m = lines_sum g m.
Proof.
  induction m as [|k r m Hk IH] using map_ind; intros Hfg.
  - by rewrite !lines_sum_empty.
  - rewrite !lines_sum_insert by done.
    rewrite (Hfg k r) by apply lookup_insert_eq.
    rewrite IH; [done|]. intros i x Hi. apply (Hfg i).
    rewrite lookup_insert_ne; [done|]. congruence.
Qed.

Lemma lines_sum_filter f (P : Z * DetailRow.t → Prop) `{!∀ kr, Decision (P kr)}
    (Q : DetailRow.t → Prop) `{!∀ r, Decision (Q r)} (m : gmap Z DetailRow.t) :
  (∀ k r, P (k, r) ↔ Q r) →
  lines_sum f (filter P m) = lines_sum (λ r, if decide (Q r) then f r else None) m.
Proof.
  intros HPQ. induction m as [|k r m Hk IH] using map_ind.
  - by rewrite map_filter_empty, !lines_sum_empty.
  - rewrite (lines_sum_insert _ m) by done.
    destruct (decide (Q r)) as [HQ|HQ].
    + rewrite map_filter_insert_True by (by apply HPQ).
      rewrite lines_sum_insert by (by rewrite map_lookup_filter_None; left).
      by rewrite IH.
    + rewrite map_filter_insert_False, delete_id by (done || by rewrite HPQ).
      rewrite IH. simpl. lia.
Qed.

Lemma lines_sum_split f (P : DetailRow.t → Prop) `{!∀ r, Decision (P r)}
    (m : gmap Z DetailRow.t) :
  lines_sum f m
    = lines_sum (λ r, if decide (P r) then f r else None) m
      + lines_sum (λ r, if decide (P r) then None else f r) m.
Proof.
  induction m as [|k r m Hk IH] using map_ind.
  - by rewrite !lines_sum_empty.
  - rewrite !lines_sum_insert by done. rewrite IH.
    destruct (decide (P r)); simpl; lia.
Qed.

Lemma signed_sum_lines_sum (db : DB) (pid : Z) :
  signed_sum db pid = lines_sum (line_of db pid) (details db).
Proof. reflexivity. Qed.

(** ** Deleting transactions and products *)

Lemma line_of_delete_other (db db' : DB) (tid pid : Z) (r : DetailRow.t) :
  transactions db' = delete tid (transactions db) →
  DetailRow.transaction_id r ≠ tid →
  line_of db' pid r = line_of db pid r.
Proof.
  intros Ht Hne. unfold line_of. by rewrite Ht, lookup_delete_ne.
Qed.

Lemma cascade_signed_sum (db db' : DB) (tid pid : Z) :
  transactions db' = delete tid (transactions db) →
  details db' = filter (λ kr, DetailRow.transaction_id kr.2 ≠ tid) (details db) →
  signed_sum db pid = signed_sum db' pid + transaction_contribution db tid pid.
Proof.
  intros Ht Hd. rewrite !signed_sum_lines_sum, Hd. unfold transaction_contribution.
  rewrite (lines_sum_filter (line_of db' pid) _
             (λ r, DetailRow.transaction_id r ≠ tid) (details db)) by done.
  rewrite (lines_sum_split (line_of db pid)
             (λ r, DetailRow.transaction_id r ≠ tid) (details db)).
  f_equal; apply lines_sum_ext; intros k r _.
  - destruct (decide _); [|done]. symmetry. by apply (line_of_delete_other db db' tid).
  - destruct (decide _) as [Hne|Heq].
    + by rewrite bool_decide_false.
    + rewrite bool_decide_true; [done|]. by destruct (decide (DetailRow.transaction_id r = tid)).
Qed.

(** X7.  [transaction_delete] never writes a product, never touches another
    transaction or the lines of another transaction, and changes the database
    at all only on a POST by a logged-in user who is staff or the creator of a
    stored transaction. *)
Theorem transaction_delete_frame (request : HttpRequest) (pk : Z) (db : DB) :
  let db' := (transaction_delete request pk db).2 in
  products db' = products db ∧
  (∀ tid, tid ≠ pk → transactions db' !! tid = transactions db !! tid) ∧
  (∀ k r, DetailRow.transaction_id r ≠ pk →
     details db' !! k = Some r ↔ details db !! k = Some r) ∧
  (db' ≠ db →
     ∃ u tr, user request = Some u ∧ method request = "POST" ∧
             Transaction_get db pk = Some tr ∧
             (User.is_staff u = true ∨
              Transaction.created_by tr = Some (User.id u))).
Proof.
  unfold transaction_delete.
  destruct (user request) as [u|]; [|by simpl].
  destruct (Transaction_get db pk) as [tr|] eqn:Hget; [|by simpl].
  destruct (String.eqb_spec (method request) "POST") as [Hm|Hm]; [|by simpl].
  destruct (User.is_staff u) eqn:Hstaff; simpl.
  - assert (Transaction.id tr = Some pk) as Hid.
    { unfold Transaction_get in Hget.
      destruct (transactions db !! pk); [|done]. by injection Hget as <-. }
    unfold Transaction_delete. rewrite Hid. simpl.
    split; [done|]. split; [by intros tid Hne; rewrite lookup_delete_ne|].
    split; [intros k r Hne; rewrite map_lookup_filter_Some; simpl; tauto|].
    intros _. exists u, tr. auto.
  - case_bool_decide as Hc; simpl; [|done].
    assert (Transaction.id tr = Some pk) as Hid.
    { unfold Transaction_get in Hget.
      destruct (transactions db !! pk); [|done]. by injection Hget as <-. }
    unfold Transaction_delete. rewrite Hid. simpl.
    split; [done|]. split; [by intros tid Hne; rewrite lookup_delete_ne|].
    split; [intros k r Hne; rewrite map_lookup_filter_Some; simpl; tauto|].
    intros _. exists u, tr. auto.
Qed.

(** X8.  Deleting a transaction writes no stock and takes the
    transaction's lines out of every product's signed sum, so it keeps a
    consistent ledger consistent exactly when those lines sum to zero on every
    stored product. *)
Theorem transaction_delete_shifts_ledger (db : DB) (tr : Transaction.t) (tid : Z) :
  Transaction.id tr = Some tid →
  let db' := (Transaction_delete tr db).2 in
  (∀ pid, stock db' pid = stock db pid ∧
          signed_sum db' pid = signed_sum db pid - transaction_contribution db tid pid) ∧
  (ledger_consistent db →
     ledger_consistent db' ↔
     ∀ pid, is_Some (products db !! pid) → transaction_contribution db tid pid = 0).
Proof.
  intros Hid db'. subst db'. unfold Transaction_delete. rewrite Hid. simpl.
  match goal with |- context [signed_sum ?d _] => set (db' := d) end.
  assert (∀ pid, signed_sum db' pid
                 = signed_sum db pid - transaction_contribution db tid pid) as Hsum.
  { intros pid. rewrite (cascade_signed_sum db db' tid pid) by done. lia. }
  split; [by intros pid; split|].
  intros Hcons. split.
  - intros Hcons' pid [p Hp].
    pose proof (Hcons pid p Hp) as H1. pose proof (Hcons' pid p Hp) as H2.
    simpl in H1, H2. rewrite Hsum in H2. lia.
  - intros Hzero pid p Hp. simpl. rewrite Hsum.
    rewrite (Hcons pid p Hp), Hzero by eauto. lia.
Qed.

Lemma transaction_delete_shifts_ledger_witness :
  (∀ pid, stock (Transaction_delete sale_3 db_2).2 pid = stock db_2 pid ∧
          signed_sum (Transaction_delete sale_3 db_2).2 pid
            = signed_sum db_2 pid - transaction_contribution db_2 3 pid) ∧
  (ledger_consistent db_2 →
     ledger_consistent (Transaction_delete sale_3 db_2).2 ↔
     ∀ pid, is_Some (products db_2 !! pid) → transaction_contribution db_2 3 pid = 0).
Proof. apply (transaction_delete_shifts_ledger db_2 sale_3 3). reflexivity. Defined.

Example transaction_delete_shift_db_2 :
  transaction_contribution db_2 3 1 = -400 ∧
  signed_sum db_2 1 = 600 ∧
  signed_sum (Transaction_delete sale_3 db_2).2 1 = 1000 ∧
  stock (Transaction_delete sale_3 db_2).2 1 = Some 600.
Proof. by vm_compute. Qed.

Lemma Product_get_Some (db : DB) (pk : Z) (p : Product.t) :
  products db !! pk = Some p →
  ∃ product, Product_get db pk = Some product ∧
             Product.id product = pk ∧
             Product.current_stock product = Product.current_stock p ∧
             Product.product_code product = Product.product_code p.
Proof. intros Hp. unfold Product_get. rewrite Hp. simpl. eauto. Qed.

Lemma Product_delete_consistent (db : DB) (product : Product.t) :
  ledger_consistent db → ledger_consistent (Product_delete product db).2.
Proof.
  intros Hcons pid p Hp. simpl in Hp.
  apply lookup_delete_Some in Hp as [Hne Hp].
  rewrite (Hcons pid p Hp). simpl. rewrite !signed_sum_lines_sum. simpl.
  rewrite (lines_sum_filter _ _
             (λ r, DetailRow.product_id r ≠ Product.id product) (details db)) by done.
  apply lines_sum_ext. intros k r _.
  destruct (decide _) as [|Heq]; [done|].
  apply dec_stable in Heq. unfold line_of.
  rewrite bool_decide_false; [done|]. congruence.
Qed.

(** X9.  [ProductDeleteView.delete] answers 404 for a missing product,
    refuses a product whose stock is not zero with the error message and
    leaves the database as it was, and for a stock of zero removes the
    product and exactly its lines, writing no other product and no
    transaction.  In every case a consistent ledger stays consistent. *)
Theorem product_delete_guard (pk : Z) (db : DB) :
  let '(response, msgs, db') := ProductDeleteView_delete pk db in
  (products db !! pk = None → response = Http404 ∧ db' = db) ∧
  (∀ p, products db !! pk = Some p → Product.current_stock p ≠ 0 →
     response = render "inventory/product_confirm_delete.html" ∧
     msgs = [messages_error "Cannot delete product with existing stock"] ∧
     db' = db) ∧
  (∀ p, products db !! pk = Some p → Product.current_stock p = 0 →
     response = redirect "product_list" ∧
     products db' = delete pk (products db) ∧
     transactions db' = transactions db ∧
     ∀ k r, details db' !! k = Some r ↔
            details db !! k = Some r ∧ DetailRow.product_id r ≠ pk) ∧
  (ledger_consistent db → ledger_consistent db').
Proof.
  unfold ProductDeleteView_delete.
  destruct (products db !! pk) as [p|] eqn:Hp.
  - destruct (Product_get_Some db pk p Hp) as (product & -> & Hid & Hs & _).
    rewrite Hs. destruct (Z.eqb_spec (Product.current_stock p) 0) as [Hz|Hnz]; simpl.
    + split; [done|]. split; [by intros ? [= <-]|]. split.
      * intros ? _ _. rewrite Hid.
        split; [done|]. split; [done|]. split; [done|].
        intros k r. rewrite map_lookup_filter_Some. simpl. tauto.
      * apply Product_delete_consistent.
    + split; [done|]. split; [done|]. split; [by intros ? [= <-]|done].
  - unfold Product_get. rewrite Hp. simpl. repeat split; done.
Qed.

Example product_delete_db_2 :
  (ProductDeleteView_delete 1 db_2).2 = db_2 ∧
  products (ProductDeleteView_delete 2 db_2).2 !! 2 = None ∧
  (ProductDeleteView_delete 2 db_2).1.2
    = [messages_success "Product GAD-001 deleted"].
Proof. by vm_compute. Qed.

(** X10.  A transaction that [TransactionCreateView.form_valid] has saved
    for user [u] gets a fresh positive key and [u] as its creator; another
    user who is not staff is refused its deletion, and a POST of [u] to
    [transaction_delete] gives back the database as it was before the
    creation. *)
Theorem created_transaction_round_trip
    (u v : User.t) (form_instance : Transaction.t) (db : DB) :
  Transaction.id form_instance = None →
  transactions_exist db →
  User.is_staff v = false →
  User.id v ≠ User.id u →
  let k := new_pk (transactions db) in
  let db1 := (TransactionCreateView_form_valid u form_instance db).2 in
  0 < k ∧
  transactions db !! k = None ∧
  Transaction_get db1 k =
    Some (Transaction.mk (Some k) (Transaction.transaction_type form_instance)
            (Some (User.id u))) ∧
  transaction_delete (mkRequest (Some v) "POST") k db1 =
    (redirect "transaction_list",
     [messages_error "You do not have permission to delete this transaction"], db1) ∧
  transaction_delete (mkRequest (Some u) "POST") k db1 =
    (redirect "transaction_list",
     [messages_success "Transaction deleted successfully"], db).
Proof.
  intros Hid Hfk Hstaff Hvu k db1.
  assert (transactions db !! k = None) as Hfresh by apply new_pk_fresh.
  assert (Transaction_get db1 k =
            Some (Transaction.mk (Some k) (Transaction.transaction_type form_instance)
                    (Some (User.id u)))) as Hget.
  { subst db1. unfold TransactionCreateView_form_valid, Transaction_save,
      Transaction_get, mbind, ORM_bind, get. simpl. rewrite Hid. simpl.
    fold k. by rewrite lookup_insert_eq. }
  split; [apply new_pk_pos|]. split; [done|]. split; [done|].
  unfold transaction_delete. rewrite Hget. simpl. split.
  - rewrite Hstaff. simpl. rewrite bool_decide_false by congruence. done.
  - rewrite bool_decide_true by done. rewrite orb_true_r.
    do 2 f_equal. subst db1.
    unfold TransactionCreateView_form_valid, Transaction_save,
      mbind, ORM_bind, get. simpl. rewrite Hid. simpl. fold k.
    destruct db as [P T D]. simpl in *. f_equal.
    + by rewrite delete_insert_eq, delete_id.
    + apply map_filter_id. intros i r Hr. simpl. intros Heq.
      destruct (Hfk i r Hr) as [tr Htr]. simpl in Htr. congruence.
Qed.

Lemma created_transaction_round_trip_witness :
  0 < 4 ∧
  transactions db_2 !! 4 = None ∧
  Transaction_get
    (TransactionCreateView_form_valid (User.mk 7 false)
       (Transaction.mk None "return" None) db_2).2 4
    = Some (Transaction.mk (Some 4) "return" (Some 7)) ∧
  transaction_delete (mkRequest (Some (User.mk 9 false)) "POST") 4
    (TransactionCreateView_form_valid (User.mk 7 false)
       (Transaction.mk None "return" None) db_2).2
    = (redirect "transaction_list",
       [messages_error "You do not have permission to delete this transaction"],
       (TransactionCreateView_form_valid (User.mk 7 false)
          (Transaction.mk None "return" None) db_2).2) ∧
  transaction_delete (mkRequest (Some (User.mk 7 false)) "POST") 4
    (TransactionCreateView_form_valid (User.mk 7 false)
       (Transaction.mk None "return" None) db_2).2
    = (redirect "transaction_list",
       [messages_success "Transaction deleted successfully"], db_2).
Proof.
  apply (created_transaction_round_trip (User.mk 7 false) (User.mk 9 false)
           (Transaction.mk None "return" None) db_2).
  - reflexivity.
  - apply (bool_decide_unpack _). vm_compute. exact I.
  - reflexivity.
  - simpl. lia.
Defined.

(** ** Reports against the counters *)

Lemma ledger_lines_types (db : DB) (pid : Z) :
  transaction_types_valid db →
  Forall (λ l, l.1 ∈ Transaction.TRANSACTION_TYPES.*1) (ledger_lines db pid).
Proof.
  intros Hvalid. unfold ledger_lines.
  induction ((map_to_list (details db)).*2) as [|r l IH]; csimpl; [done|].
  unfold line_of at 1. case_bool_decide; [|done].
  destruct (transactions db !! DetailRow.transaction_id r) as [tr|] eqn:Htr; [|done].
  simpl. constructor; [|done]. simpl.
  pose proof (Hvalid _ _ Htr) as Hc. simpl in Hc. unfold Transaction_clean, str_in in Hc.
  by case_bool_decide.
Qed.

Lemma Zsum_cons (x : Z) (l : list Z) : Zsum (x :: l) = x + Zsum l.
Proof. reflexivity. Qed.

Lemma signed_sum_in_out (lines : list (string * Z)) :
  Forall (λ l, l.1 ∈ Transaction.TRANSACTION_TYPES.*1) lines →
  Zsum (signed_quantity <$> lines) = quantity_in lines - quantity_out lines.
Proof.
  unfold quantity_in, quantity_out.
  induction 1 as [|[ty q] lines Hty _ IH]; [done|].
  rewrite fmap_cons, Zsum_cons, IH, !filter_cons. clear IH. simpl in Hty.
  unfold signed_quantity, incoming, str_in. simpl.
  assert (ty = "sale" → ty ∉ ["purchase"; "return"; "adjustment"]) as Hsale.
  { intros ->. rewrite !elem_of_cons, elem_of_nil. intuition discriminate. }
  assert (ty ∉ ["purchase"; "return"; "adjustment"] → ty = "sale") as Hrest.
  { revert Hty. rewrite !elem_of_cons, !elem_of_nil. tauto. }
  destruct (decide (ty ∈ ["purchase"; "return"; "adjustment"])) as [Hin|Hin].
  - rewrite bool_decide_true by done.
    destruct (decide (ty = "sale")) as [Hs|Hs]; [by destruct (Hsale Hs)|].
    rewrite fmap_cons, Zsum_cons. simpl. lia.
  - rewrite bool_decide_false by done.
    rewrite decide_True by auto. rewrite bool_decide_true by (rewrite (Hrest Hin); left).
    rewrite fmap_cons, Zsum_cons. simpl. lia.
Qed.

(** X11.  With a consistent ledger and valid transaction types, the
    report's [total_in - total_out] of a product, and that of its
    stock-movements view, is the product's [current_stock]. *)
Theorem report_reconciles (request : HttpRequest) (db : DB) (pid : Z) (p : Product.t) :
  user request ≠ None →
  ledger_consistent db →
  transaction_types_valid db →
  products db !! pid = Some p →
  ∃ a ctx t_in t_out,
    (inventory_report request db).2 !! pid = Some a ∧
    total_in a = Some t_in ∧ total_out a = Some t_out ∧
    t_in - t_out = Product.current_stock p ∧
    ProductStockMovementsView_get_context_data db pid = Some ctx ∧
    ctx_total_in ctx - ctx_total_out ctx = Product.current_stock p.
Proof.
  intros Hu Hcons Hvalid Hp.
  destruct (annotate_totals db pid p) as [Hin Hout].
  destruct (context_totals db pid p Hp) as (ctx & Hctx & Hcin & Hcout).
  pose proof (signed_sum_in_out _ (ledger_lines_types db pid Hvalid)) as Hsum.
  fold (signed_sum db pid) in Hsum. rewrite <-(Hcons pid p Hp) in Hsum.
  exists (annotate db pid p), ctx, (quantity_in (ledger_lines db pid)),
    (quantity_out (ledger_lines db pid)).
  split.
  { unfold inventory_report. destruct (user request); [|done]. simpl.
    by rewrite map_lookup_imap, Hp. }
  split; [done|]. split; [done|]. split; [lia|]. split; [done|]. lia.
Qed.

Lemma report_reconciles_witness :
  ∃ a ctx t_in t_out,
    (inventory_report (mkRequest (Some (User.mk 7 false)) "GET") db_2).2 !! 1 = Some a ∧
    total_in a = Some t_in ∧ total_out a = Some t_out ∧
    t_in - t_out = Product.current_stock (Product.set_current_stock widget 600) ∧
    ProductStockMovementsView_get_context_data db_2 1 = Some ctx ∧
    ctx_total_in ctx - ctx_total_out ctx
      = Product.current_stock (Product.set_current_stock widget 600).
Proof.
  apply (report_reconciles (mkRequest (Some (User.mk 7 false)) "GET") db_2 1
           (Product.set_current_stock widget 600)).
  - discriminate.
  - apply (bool_decide_unpack _). vm_compute. exact I.
  - apply (bool_decide_unpack _). vm_compute. exact I.
  - by vm_compute.
Defined.

(** ** Serializers *)

Lemma ledger_consistent_discrepancy (db : DB) :
  ledger_consistent db ↔
  ∀ pid, is_Some (products db !! pid) → discrepancy db pid = Some 0.
Proof.
  unfold discrepancy. split.
  - intros Hcons pid [p Hp]. rewrite Hp. simpl. rewrite (Hcons pid p Hp). f_equal. lia.
  - intros H pid p Hp. specialize (H pid (ex_intro _ p Hp)).
    rewrite Hp in H. simpl in H. injection H as H. lia.
Qed.

Lemma discrepancy_same (db db' : DB) :
  (∀ pid, discrepancy db' pid = discrepancy db pid) →
  ledger_consistent db → ledger_consistent db'.
Proof.
  intros Hsame Hcons. apply ledger_consistent_discrepancy. intros pid Hsome.
  rewrite Hsame. apply ledger_consistent_discrepancy; [done|].
  specialize (Hsame pid). unfold discrepancy in Hsame.
  destruct Hsome as [p Hp]. rewrite Hp in Hsame.
  by destruct (products db !! pid).
Qed.

(** A line that [save] creates moves the stock and the signed sum of its
    product alike. *)
Lemma save_new_discrepancy (db : DB) (self : TransactionDetail.t) (k : Z) (db' : DB) :
  TransactionDetail.pk self = None →
  related_loaded db self →
  Transaction_clean (TransactionDetail.transaction self) = inr tt →
  TransactionDetail_save self db = (inr k, db') →
  ∀ pid, discrepancy db' pid = discrepancy db pid.
Proof.
  intros Hpk Hload Hvalid Hsave pid.
  destruct (save_new_ok_inv _ _ _ _ Hpk Hsave) as (tid & _ & Htid & _ & -> & ->).
  destruct (related_loaded_inv _ _ Hload)
    as (tid' & trow & prow & Htid' & Htr & Hty & Hp & Hs & _).
  assert (tid' = tid) as -> by congruence.
  unfold discrepancy. simpl.
  rewrite (signed_sum_insert db _ pid (new_pk (details db)) (row_of self tid));
    [|done|apply new_pk_fresh|done].
  destruct (decide (pid = Product.id (TransactionDetail.product self))) as [->|Hne].
  - rewrite lookup_insert_eq, Hp. simpl. f_equal.
    unfold row_of. rewrite (line_of_own _ _ _ trow) by done. simpl.
    rewrite product_after_save_stock, <-Hty.
    rewrite (signed_quantity_valid (TransactionDetail.transaction self)) by done.
    rewrite Hs. destruct (str_in _ _); lia.
  - rewrite lookup_insert_ne by done. rewrite line_of_other by done.
    simpl. destruct (products db !! pid); simpl; [f_equal; lia|done].
Qed.

Lemma clean_error_inv (self : TransactionDetail.t) (e : exn) :
  TransactionDetail_clean self = inl e →
  e = ValidationError (TransactionDetail.product self)
        (Product.current_stock (TransactionDetail.product self))
        (TransactionDetail.quantity self) ∧
  Product.current_stock (TransactionDetail.product self)
    < TransactionDetail.quantity self.
Proof.
  unfold TransactionDetail_clean.
  destruct (negb _); [done|]. destruct (str_in _ _); [|done].
  destruct (Z.ltb_spec (Product.current_stock (TransactionDetail.product self))
              (TransactionDetail.quantity self)); [|done].
  by intros [= <-].
Qed.

(** A new line with loaded related objects and a free pair is either
    created or rejected by [clean], which leaves the database as it was. *)
Lemma save_new_fails_inv (db : DB) (self : TransactionDetail.t) (tid : Z)
    (e : exn) (db' : DB) :
  TransactionDetail.pk self = None →
  related_loaded db self →
  TransactionDetail.transaction_id self = Some tid →
  unique_transaction_product_violated None (row_of self tid) (details db) = false →
  TransactionDetail_save self db = (inl e, db') →
  db' = db ∧ ∃ p a r, e = ValidationError p a r.
Proof.
  intros Hpk Hload Htid Hu.
  destruct (related_loaded_inv _ _ Hload) as (tid' & trow & _ & Htid' & Htr & _).
  assert (tid' = tid) as -> by congruence.
  rewrite save_new_eq by done.
  destruct (TransactionDetail_clean self) as [e'|[]] eqn:Hclean.
  - intros [= <- <-]. split; [done|].
    destruct (clean_error_inv _ _ Hclean) as [-> _]. eauto.
  - rewrite Model_save_new_eq by done. rewrite Htid. simpl.
    rewrite bool_decide_false by congruence. by rewrite Hu.
Qed.

Lemma pair_free (m : gmap Z DetailRow.t) (row : DetailRow.t) :
  (∀ i r, m !! i = Some r →
     DetailRow.transaction_id r = DetailRow.transaction_id row →
     DetailRow.product_id r ≠ DetailRow.product_id row) →
  unique_transaction_product_violated None row m = false.
Proof.
  intros Hfree. unfold unique_transaction_product_violated.
  apply bool_decide_eq_false. intros (i & r & Hi & _ & Ht & Hp).
  by apply (Hfree i r).
Qed.

Lemma Transaction_get_id (db : DB) (tid : Z) (t : Transaction.t) :
  Transaction_get db tid = Some t →
  Transaction.id t = Some tid ∧
  ∃ trow, transactions db !! tid = Some trow ∧
          Transaction.transaction_type t = Transaction.transaction_type trow.
Proof.
  unfold Transaction_get. destruct (transactions db !! tid) as [trow|]; [|done].
  intros [= <-]. eauto.
Qed.

Lemma Transaction_get_frame (db db' : DB) (tid : Z) :
  transactions db' = transactions db → Transaction_get db' tid = Transaction_get db tid.
Proof. intros Ht. unfold Transaction_get. by rewrite Ht. Qed.

Lemma create_details_inv (t : Transaction.t) (tid : Z) (ds : list DetailData.t) :
  ∀ (db : DB) (outcome : exn + unit) (db' : DB),
  Transaction_get db tid = Some t →
  Transaction_clean t = inr tt →
  details_loaded db ds →
  (∀ i r, details db !! i = Some r → DetailRow.transaction_id r = tid →
     DetailRow.product_id r ∉ (λ d, Product.id (DetailData.product d)) <$> ds) →
  create_details t ds db = (outcome, db') →
  (∀ pid, discrepancy db' pid = discrepancy db pid) ∧
  transactions db' = transactions db ∧
  (∀ pid, pid ∉ (λ d, Product.id (DetailData.product d)) <$> ds →
     products db' !! pid = products db !! pid) ∧
  (∀ i r, details db !! i = Some r → details db' !! i = Some r) ∧
  (outcome = inr tt ∨ ∃ p a r, outcome = inl (ValidationError p a r)) ∧
  (outcome = inr tt →
     Forall (λ d, stock db' (Product.id (DetailData.product d))
                    = Some (stock_after t d) ∧
                  ∃ i, details db' !! i = Some (line_row tid d)) ds).
Proof.
  induction ds as [|d ds IH]; intros db outcome db' Hget Hvalid [Hload Hnodup] Hfree.
  - simpl. intros [= <- <-]. repeat split; auto.
  - simpl. unfold mbind, ORM_bind, TransactionDetail_objects_create.
    set (self := TransactionDetail.mk None t (DetailData.product d)
                   (DetailData.quantity d) (DetailData.unit_price d)).
    apply Forall_cons in Hload as [Hp Hload].
    rewrite fmap_cons in Hnodup. apply NoDup_cons in Hnodup as [Hnotin Hnodup].
    destruct (Transaction_get_id _ _ _ Hget) as (Hid & trow & Htr & Hty).
    assert (related_loaded db self) as Hrel by (split; [by exists tid|done]).
    assert (unique_transaction_product_violated None (row_of self tid) (details db)
            = false) as Hu.
    { apply pair_free. intros i r Hi Ht Heq. simpl in *.
      apply (Hfree i r Hi Ht). rewrite Heq. left. }
    destruct (TransactionDetail_save self db) as [[e|k] db1] eqn:Hsave.
    + intros [= <- <-].
      destruct (save_new_fails_inv db self tid e db1 eq_refl Hrel Hid Hu Hsave)
        as (-> & p & a & r & ->).
      split; [done|]. split; [done|]. split; [done|]. split; [done|].
      split; [right; eauto|]. intros [=].
    + intros Hrest.
      pose proof (save_new_discrepancy db self k db1 eq_refl Hrel Hvalid Hsave) as Hdisc.
      destruct (save_new_ok_inv self db k db1 eq_refl Hsave)
        as (tid' & _ & Htid' & _ & Hk & Hdb1).
      assert (tid' = tid) as ->
        by (unfold TransactionDetail.transaction_id in Htid'; simpl in Htid'; congruence).
      assert (transactions db1 = transactions db) as Ht1 by (by rewrite Hdb1).
      assert (∀ pid, pid ≠ Product.id (DetailData.product d) →
                products db1 !! pid = products db !! pid) as Hp1.
      { intros pid Hne. rewrite Hdb1. simpl. by rewrite lookup_insert_ne. }
      assert (∀ i r, details db !! i = Some r → details db1 !! i = Some r) as Hmono.
      { intros i r Hi. rewrite Hdb1. simpl. rewrite lookup_insert_ne; [done|].
        intros <-. rewrite Hk, new_pk_fresh in Hi. done. }
      destruct (IH db1 outcome db') as (Hd' & Ht' & Hp' & Hm' & Hout & Hst); try done.
      * by rewrite (Transaction_get_frame db db1 tid Ht1).
      * split; [|done]. apply Forall_forall. intros d' Hin.
        rewrite Forall_forall in Hload. specialize (Hload d' Hin). simpl in Hload.
        unfold Product_get in *. rewrite Hp1; [done|].
        intros Heq. apply Hnotin. rewrite <-Heq. apply list_elem_of_fmap. eauto.
      * intros i r Hi Ht Hin. rewrite Hdb1 in Hi. simpl in Hi.
        apply lookup_insert_Some in Hi as [[_ <-]|[_ Hi]].
        -- simpl in Hin. by apply Hnotin.
        -- apply (Hfree i r Hi Ht). rewrite ?fmap_cons. by right.
      * split; [by intros pid; rewrite Hd'|]. split; [by rewrite Ht'|]. split.
        { intros pid Hnot. rewrite ?fmap_cons in Hnot.
          apply not_elem_of_cons in Hnot as [Hne Hnot].
          rewrite Hp' by done. by apply Hp1. }
        split; [by auto|]. split; [done|].
        intros Hok. apply Forall_cons. split; [|by apply Hst]. split.
        -- unfold stock. rewrite Hp' by done. rewrite Hdb1. simpl.
           rewrite lookup_insert_eq. simpl. by rewrite product_after_save_stock.
        -- exists k. apply Hm'. rewrite Hdb1. simpl. by rewrite lookup_insert_eq.
Qed.

(** Saving a transaction under a key that no line refers to moves no signed
    sum. *)
Lemma Transaction_insert_signed_sum (db db' : DB) (k : Z) (t : Transaction.t) (pid : Z) :
  transactions db' = <[k := t]> (transactions db) →
  details db' = details db →
  (∀ i r, details db !! i = Some r → DetailRow.transaction_id r ≠ k) →
  signed_sum db' pid = signed_sum db pid.
Proof.
  intros Ht Hd Hfree. rewrite !signed_sum_lines_sum, Hd.
  apply lines_sum_ext. intros i r Hi. unfold line_of.
  by rewrite Ht, lookup_insert_ne by (symmetry; by eapply Hfree).
Qed.

Lemma fresh_transaction_unreferenced (db : DB) (k : Z) :
  transactions_exist db →
  transactions db !! k = None →
  ∀ i r, details db !! i = Some r → DetailRow.transaction_id r ≠ k.
Proof.
  intros Hfk Hk i r Hi Heq. destruct (Hfk i r Hi) as [t Ht]. simpl in Ht. congruence.
Qed.

(** X12.  [TransactionSerializer.create] on items whose products are the
    stored rows, each product once, under a valid type: however it ends, it
    leaves a consistent ledger consistent and the types valid; it ends by
    returning the transaction or by the validation error of a line, never by
    a violated constraint; and when it returns, the transaction is stored
    under the new key with one line per item, the stock of each item's
    product moved by its quantity. *)
Theorem serializer_create_keeps_ledger
    (request : HttpRequest) (u : User.t) (transaction_type : string)
    (details_data : list DetailData.t) (db : DB) :
  user request = Some u →
  ledger_consistent db →
  transaction_types_valid db →
  transactions_exist db →
  transaction_type ∈ Transaction.TRANSACTION_TYPES.*1 →
  details_loaded db details_data →
  let tid := new_pk (transactions db) in
  let t := Transaction.mk (Some tid) transaction_type (Some (User.id u)) in
  let '(outcome, db') :=
    TransactionSerializer_create (Some request) transaction_type details_data db in
  ledger_consistent db' ∧
  transaction_types_valid db' ∧
  Transaction_get db' tid = Some t ∧
  (outcome = inr t ∨ ∃ p a r, outcome = inl (ValidationError p a r)) ∧
  (outcome = inr t →
     Forall (λ d, stock db' (Product.id (DetailData.product d))
                    = Some (stock_after t d) ∧
                  ∃ i, details db' !! i = Some (line_row tid d)) details_data).
Proof.
  intros Hu Hcons Hvalid Hfk Hty Hload tid t.
  unfold TransactionSerializer_create. rewrite Hu.
  unfold mbind, ORM_bind, mret, ORM_ret, Transaction_save, get. simpl. fold tid t.
  set (db1 := mkDB _ _ _).
  assert (transactions db !! tid = None) as Hfresh by apply new_pk_fresh.
  assert (Transaction_clean t = inr tt) as Htv.
  { unfold Transaction_clean, str_in. simpl. by rewrite bool_decide_true. }
  assert (Transaction_get db1 tid = Some t) as Hget.
  { unfold Transaction_get. simpl. by rewrite lookup_insert_eq. }
  assert (∀ pid, discrepancy db1 pid = discrepancy db pid) as Hd1.
  { intros pid. unfold discrepancy. simpl.
    rewrite (Transaction_insert_signed_sum db db1 tid t pid); try done.
    by apply fresh_transaction_unreferenced. }
  assert (transaction_types_valid db1) as Hvalid1.
  { by apply map_Forall_insert_2. }
  destruct (create_details t details_data db1) as [outcome db'] eqn:Hcreate.
  destruct (create_details_inv t tid details_data db1 outcome db')
    as (Hd' & Ht' & _ & _ & Hout & Hst); try done.
  { intros i r Hi Heq. exfalso.
    by apply (fresh_transaction_unreferenced db tid Hfk Hfresh i r). }
  assert (ledger_consistent db') as Hcons'.
  { apply (discrepancy_same db); [|done]. intros pid. by rewrite Hd', Hd1. }
  assert (transaction_types_valid db') as Hvalid'.
  { unfold transaction_types_valid. by rewrite Ht'. }
  assert (Transaction_get db' tid = Some t) as Hget'.
  { by rewrite (Transaction_get_frame db1 db' tid Ht'). }
  destruct outcome as [e|[]]; simpl.
  - split; [done|]. split; [done|]. split; [done|]. split; [|by intros [=]].
    right. destruct Hout as [[=]|(p & a & r & [= ->])]. eauto.
  - split; [done|]. split; [done|]. split; [done|]. split; [by left|].
    intros _. by apply Hst.
Qed.

Lemma serializer_create_keeps_ledger_witness :
  let '(outcome, db') :=
    TransactionSerializer_create
      (Some (mkRequest (Some (User.mk 7 false)) "POST")) "return"
      [DetailData.mk (Product.set_current_stock widget 600) 200 None;
       DetailData.mk gadget 300 (Some 999)] db_2 in
  ledger_consistent db' ∧
  transaction_types_valid db' ∧
  Transaction_get db' 4 = Some (Transaction.mk (Some 4) "return" (Some 7)) ∧
  (outcome = inr (Transaction.mk (Some 4) "return" (Some 7)) ∨
   ∃ p a r, outcome = inl (ValidationError p a r)) ∧
  (outcome = inr (Transaction.mk (Some 4) "return" (Some 7)) →
     Forall (λ d, stock db' (Product.id (DetailData.product d))
                    = Some (stock_after (Transaction.mk (Some 4) "return" (Some 7)) d) ∧
                  ∃ i, details db' !! i = Some (line_row 4 d))
       [DetailData.mk (Product.set_current_stock widget 600) 200 None;
        DetailData.mk gadget 300 (Some 999)]).
Proof.
  apply (serializer_create_keeps_ledger
           (mkRequest (Some (User.mk 7 false)) "POST") (User.mk 7 false) "return"
           [DetailData.mk (Product.set_current_stock widget 600) 200 None;
            DetailData.mk gadget 300 (Some 999)] db_2).
  - reflexivity.
  - apply (bool_decide_unpack _). vm_compute. exact I.
  - apply (bool_decide_unpack _). vm_compute. exact I.
  - apply (bool_decide_unpack _). vm_compute. exact I.
  - apply (bool_decide_unpack _). vm_compute. exact I.
  - split.
    + repeat constructor.
    + apply (bool_decide_unpack _). vm_compute. exact I.
Defined.

Example serializer_create_db_2 :
  let '(outcome, db') :=
    TransactionSerializer_create
      (Some (mkRequest (Some (User.mk 7 false)) "POST")) "return"
      [DetailData.mk (Product.set_current_stock widget 600) 200 None;
       DetailData.mk gadget 300 (Some 999)] db_2 in
  outcome = inr (Transaction.mk (Some 4) "return" (Some 7)) ∧
  stock db' 1 = Some 800 ∧ stock db' 2 = Some 300 ∧ price db' 2 = Some 999.
Proof. by vm_compute. Qed.

Lemma signed_sum_split_tx (db : DB) (tid pid : Z) :
  signed_sum db pid
    = lines_sum (λ r, if decide (DetailRow.transaction_id r ≠ tid)
                      then line_of db pid r else None) (details db)
      + transaction_contribution db tid pid.
Proof.
  rewrite signed_sum_lines_sum. unfold transaction_contribution.
  rewrite (lines_sum_split (line_of db pid)
             (λ r, DetailRow.transaction_id r ≠ tid) (details db)).
  f_equal. apply lines_sum_ext. intros k r _.
  destruct (decide _) as [Hne|Heq].
  - by rewrite bool_decide_false.
  - rewrite bool_decide_true; [done|].
    by destruct (decide (DetailRow.transaction_id r = tid)).
Qed.

(** Lines of other transactions read the same after transaction [tid] has
    been rewritten. *)
Lemma other_lines_insert (db db' : DB) (tid pid : Z) (t : Transaction.t) :
  transactions db' = <[tid := t]> (transactions db) →
  details db' = details db →
  lines_sum (λ r, if decide (DetailRow.transaction_id r ≠ tid)
                  then line_of db' pid r else None) (details db')
    = lines_sum (λ r, if decide (DetailRow.transaction_id r ≠ tid)
                      then line_of db pid r else None) (details db).
Proof.
  intros Ht Hd. rewrite Hd. apply lines_sum_ext. intros k r _.
  destruct (decide _); [|done]. unfold line_of.
  by rewrite Ht, lookup_insert_ne.
Qed.

Lemma lines_sum_opp f g (m : gmap Z DetailRow.t) :
  (∀ i r, m !! i = Some r →
     Zsum (signed_quantity <$> option_list (g r))
       = - Zsum (signed_quantity <$> option_list (f r))) →
  lines_sum g m = - lines_sum f m.
Proof.
  induction m as [|k r m Hk IH] using map_ind; intros Hfg.
  - by rewrite !lines_sum_empty.
  - rewrite !lines_sum_insert by done.
    rewrite (Hfg k r) by apply lookup_insert_eq.
    rewrite IH; [lia|]. intros i x Hi. apply (Hfg i).
    rewrite lookup_insert_ne; [done|]. congruence.
Qed.

Lemma signed_quantity_opposite (a b : string) (q : Z) :
  (a ∈ ["purchase"; "return"; "adjustment"] ∧ b = "sale") ∨
  (a = "sale" ∧ b ∈ ["purchase"; "return"; "adjustment"]) →
  signed_quantity (b, q) = - signed_quantity (a, q).
Proof.
  unfold signed_quantity, incoming, str_in. simpl.
  intros [[Ha ->]|[-> Hb]].
  - rewrite (bool_decide_true (a ∈ _)) by done. simpl. reflexivity.
  - rewrite (bool_decide_true (b ∈ _)) by done. simpl. lia.
Qed.

(** X13.  [TransactionSerializer.update] with a new type and no [details]
    rewrites the transaction's row and nothing else: no stock and no line.
    Every product's signed sum moves by the difference of the transaction's
    contributions under the new and the old type; from an incoming type to
    sale, or back, that is twice the old contribution. *)
Theorem serializer_update_type
    (db : DB) (tid : Z) (instance : Transaction.t) (ty' : string) :
  Transaction_get db tid = Some instance →
  let instance' := Transaction.mk (Some tid) ty' (Transaction.created_by instance) in
  let '(outcome, db') :=
    TransactionSerializer_update instance (Some ty') None db in
  outcome = inr instance' ∧
  products db' = products db ∧
  details db' = details db ∧
  Transaction_get db' tid = Some instance' ∧
  (∀ pid, signed_sum db' pid
          = signed_sum db pid - transaction_contribution db tid pid
            + transaction_contribution db' tid pid) ∧
  ((Transaction.transaction_type instance ∈ ["purchase"; "return"; "adjustment"]
    ∧ ty' = "sale") ∨
   (Transaction.transaction_type instance = "sale"
    ∧ ty' ∈ ["purchase"; "return"; "adjustment"]) →
   ∀ pid, signed_sum db' pid
          = signed_sum db pid - 2 * transaction_contribution db tid pid).
Proof.
  intros Hget instance'.
  destruct (Transaction_get_id _ _ _ Hget) as (Hid & trow & Htr & Hty).
  unfold TransactionSerializer_update, Transaction_save,
    mbind, ORM_bind, mret, ORM_ret, get. simpl. rewrite Hid. fold instance'.
  set (db' := mkDB _ _ _).
  assert (∀ pid, signed_sum db' pid
                 = signed_sum db pid - transaction_contribution db tid pid
                   + transaction_contribution db' tid pid) as Hsum.
  { intros pid. rewrite (signed_sum_split_tx db' tid pid), (signed_sum_split_tx db tid pid).
    rewrite (other_lines_insert db db' tid pid instance') by done. lia. }
  split; [done|]. split; [done|]. split; [done|]. split.
  { unfold Transaction_get. simpl. by rewrite lookup_insert_eq. }
  split; [done|].
  intros Hopp pid. rewrite Hsum.
  assert (transaction_contribution db' tid pid = - transaction_contribution db tid pid)
    as ->; [|lia].
  unfold transaction_contribution. simpl. apply lines_sum_opp. intros i r _.
  case_bool_decide as Heq; [|done]. unfold line_of. simpl.
  case_bool_decide; [|done]. rewrite Heq, lookup_insert_eq, Htr. simpl.
  rewrite (signed_quantity_opposite (Transaction.transaction_type trow) ty').
  - lia.
  - by rewrite <-Hty.
Qed.

Lemma serializer_update_type_witness :
  let '(outcome, db') := TransactionSerializer_update purchase_1 (Some "sale") None db_2 in
  outcome = inr (Transaction.mk (Some 1) "sale" (Some 7)) ∧
  products db' = products db_2 ∧
  details db' = details db_2 ∧
  Transaction_get db' 1 = Some (Transaction.mk (Some 1) "sale" (Some 7)) ∧
  (∀ pid, signed_sum db' pid
          = signed_sum db_2 pid - transaction_contribution db_2 1 pid
            + transaction_contribution db' 1 pid) ∧
  (("purchase" ∈ ["purchase"; "return"; "adjustment"] ∧ "sale" = "sale") ∨
   ("purchase" = "sale" ∧ "sale" ∈ ["purchase"; "return"; "adjustment"]) →
   ∀ pid, signed_sum db' pid
          = signed_sum db_2 pid - 2 * transaction_contribution db_2 1 pid).
Proof.
  apply (serializer_update_type db_2 1 purchase_1 "sale"). reflexivity.
Defined.

Example serializer_update_type_db_2 :
  stock db_2 1 = Some 600 ∧ signed_sum db_2 1 = 600 ∧
  stock (TransactionSerializer_update purchase_1 (Some "sale") None db_2).2 1
    = Some 600 ∧
  signed_sum (TransactionSerializer_update purchase_1 (Some "sale") None db_2).2 1
    = -1400.
Proof. by vm_compute. Qed.

(** X14.  [TransactionSerializer.update] with [details]: the stored lines
    of the transaction are removed by a DELETE that reverses no stock, then
    the new lines are created and applied.  So, however it ends, every
    product's stock less its signed sum has grown by the contribution of the
    removed lines, and a consistent ledger stays consistent exactly when
    those lines summed to zero on every product. *)
Theorem serializer_update_details
    (db : DB) (tid : Z) (instance : Transaction.t)
    (transaction_type : option string) (details_data : list DetailData.t) :
  Transaction_get db tid = Some instance →
  let instance' :=
    Transaction.mk (Some tid)
      (default (Transaction.transaction_type instance) transaction_type)
      (Transaction.created_by instance) in
  Transaction_clean instance' = inr tt →
  details_loaded db details_data →
  let '(outcome, db') :=
    TransactionSerializer_update instance transaction_type (Some details_data) db in
  (outcome = inr instance' ∨ ∃ p a r, outcome = inl (ValidationError p a r)) ∧
  (∀ pid, discrepancy db' pid
          = (λ x, x + transaction_contribution db tid pid) <$> discrepancy db pid) ∧
  (outcome = inr instance' →
     Forall (λ d, stock db' (Product.id (DetailData.product d))
                    = Some (stock_after instance' d) ∧
                  ∃ i, details db' !! i = Some (line_row tid d)) details_data) ∧
  (ledger_consistent db →
     ledger_consistent db' ↔
     ∀ pid, is_Some (products db !! pid) → transaction_contribution db tid pid = 0).
Proof.
  intros Hget instance' Hvalid Hload.
  destruct (Transaction_get_id _ _ _ Hget) as (Hid & trow & Htr & Hty).
  assert (match transaction_type with
          | Some ty => Transaction.mk (Transaction.id instance) ty
                         (Transaction.created_by instance)
          | None => instance
          end = instance') as Hinst.
  { subst instance'. destruct transaction_type as [ty|]; simpl; [by rewrite Hid|].
    unfold Transaction_get in Hget. rewrite Htr in Hget. simpl in Hget.
    injection Hget as <-. simpl. reflexivity. }
  unfold TransactionSerializer_update. rewrite Hinst.
  unfold mbind at 1 2 3, ORM_bind, mret, ORM_ret, Transaction_save, get,
    details_all_delete. simpl.
  unfold mbind, ORM_bind. simpl. fold instance'.
  set (db2 := set_details _ _).
  assert (Transaction_get db2 tid = Some instance') as Hget2.
  { unfold Transaction_get. simpl. by rewrite lookup_insert_eq. }
  assert (∀ pid, discrepancy db2 pid
                 = (λ x, x + transaction_contribution db tid pid) <$> discrepancy db pid)
    as Hd2.
  { intros pid. unfold discrepancy. simpl.
    assert (signed_sum db2 pid
            = signed_sum db pid - transaction_contribution db tid pid) as ->.
    { rewrite (signed_sum_split_tx db tid pid), signed_sum_lines_sum. simpl.
      rewrite (lines_sum_filter _ _
                 (λ r, DetailRow.transaction_id r ≠ tid) (details db)) by done.
      assert (lines_sum (λ r, if decide (DetailRow.transaction_id r ≠ tid)
                              then line_of db2 pid r else None) (details db)
              = lines_sum (λ r, if decide (DetailRow.transaction_id r ≠ tid)
                                then line_of db pid r else None) (details db)) as ->.
      { apply lines_sum_ext. intros k r _. destruct (decide _); [|done].
        unfold line_of. simpl. by rewrite lookup_insert_ne. }
      lia. }
    destruct (products db !! pid); simpl; [f_equal; lia|done]. }
  destruct (create_details instance' details_data db2) as [outcome0 db'] eqn:Hcreate.
  destruct (create_details_inv instance' tid details_data db2 outcome0 db')
    as (Hd' & _ & _ & _ & Hout & Hst); try done.
  { intros i r [_ Hne]%map_lookup_filter_Some Heq. by simpl in Hne. }
  assert (∀ pid, discrepancy db' pid
                 = (λ x, x + transaction_contribution db tid pid) <$> discrepancy db pid)
    as Hdisc by (intros pid; by rewrite Hd', Hd2).
  assert (ledger_consistent db →
          ledger_consistent db' ↔
          ∀ pid, is_Some (products db !! pid) → transaction_contribution db tid pid = 0)
    as Hiff.
  { intros Hcons. rewrite (ledger_consistent_discrepancy db').
    rewrite ledger_consistent_discrepancy in Hcons.
    assert (∀ pid, is_Some (products db' !! pid) ↔ is_Some (products db !! pid)) as Hdom.
    { intros pid. specialize (Hdisc pid). unfold discrepancy in Hdisc.
      destruct (products db' !! pid), (products db !! pid); simpl in Hdisc;
        try done; split; eauto. }
    split.
    - intros H pid Hsome. specialize (H pid (proj2 (Hdom pid) Hsome)).
      rewrite Hdisc, (Hcons pid Hsome) in H. simpl in H. injection H as H. lia.
    - intros H pid Hsome. apply Hdom in Hsome.
      rewrite Hdisc, (Hcons pid Hsome), (H pid Hsome). reflexivity. }
  destruct outcome0 as [e|[]]; simpl.
  - split; [|split; [done|split; [by intros [=]|done]]].
    right. destruct Hout as [[=]|(p & a & r & [= ->])]. eauto.
  - split; [by left|]. split; [done|]. split; [|done]. intros _. by apply Hst.
Qed.

Lemma serializer_update_details_witness :
  let '(outcome, db') :=
    TransactionSerializer_update purchase_1 None
      (Some [DetailData.mk (Product.set_current_stock widget 600) 1000 None]) db_2 in
  (outcome = inr purchase_1 ∨ ∃ p a r, outcome = inl (ValidationError p a r)) ∧
  (∀ pid, discrepancy db' pid
          = (λ x, x + transaction_contribution db_2 1 pid) <$> discrepancy db_2 pid) ∧
  (outcome = inr purchase_1 →
     Forall (λ d, stock db' (Product.id (DetailData.product d))
                    = Some (stock_after purchase_1 d) ∧
                  ∃ i, details db' !! i = Some (line_row 1 d))
       [DetailData.mk (Product.set_current_stock widget 600) 1000 None]) ∧
  (ledger_consistent db_2 →
     ledger_consistent db' ↔
     ∀ pid, is_Some (products db_2 !! pid) → transaction_contribution db_2 1 pid = 0).
Proof.
  apply (serializer_update_details db_2 1 purchase_1 None
           [DetailData.mk (Product.set_current_stock widget 600) 1000 None]).
  - reflexivity.
  - reflexivity.
  - split.
    + repeat constructor.
    + apply (bool_decide_unpack _). vm_compute. exact I.
Defined.

Example serializer_update_details_db_2 :
  let db' :=
    (TransactionSerializer_update purchase_1 None
       (Some [DetailData.mk (Product.set_current_stock widget 600) 1000 None]) db_2).2 in
  signed_sum db_2 1 = 600 ∧ stock db_2 1 = Some 600 ∧
  signed_sum db' 1 = 600 ∧ stock db' 1 = Some 1600.
Proof. by vm_compute. Qed.

(** X15.  The three stock checks agree.  For a product, a quantity above
    zero and a type, the check of [TransactionDetailSerializer.validate] (on
    POST, PUT or PATCH, with that type in the context), the one of
    [TransactionDetailForm.clean] and the one of [TransactionDetail.clean]
    (under a saved transaction) fail together, exactly when the type is sale
    and the quantity is above the stock, and each reports the stock as the
    available quantity.  Without a type in its context the serializer's check
    accepts every item. *)
Theorem stock_checks_agree
    (request_method ty : string) (self : TransactionDetail.t) :
  request_method ∈ ["POST"; "PUT"; "PATCH"] →
  truthy (TransactionDetail.transaction_id self) = true →
  Transaction.transaction_type (TransactionDetail.transaction self) = ty →
  0 < TransactionDetail.quantity self →
  let p := TransactionDetail.product self in
  let q := TransactionDetail.quantity self in
  let s := Product.current_stock p in
  TransactionDetailForm_clean_quantity q = inr q ∧
  (ty = "sale" ∧ s < q →
     TransactionDetailSerializer_validate request_method (Some ty) (Some p) (Some q)
       = inl (InsufficientStockFor (Product.product_code p) s q) ∧
     TransactionDetailForm_clean self (Some p) (Some q) = inl (InsufficientStock s) ∧
     TransactionDetail_clean self = inl (ValidationError p s q)) ∧
  (¬ (ty = "sale" ∧ s < q) →
     TransactionDetailSerializer_validate request_method (Some ty) (Some p) (Some q)
       = inr tt ∧
     TransactionDetailForm_clean self (Some p) (Some q) = inr tt ∧
     TransactionDetail_clean self = inr tt) ∧
  TransactionDetailSerializer_validate request_method None (Some p) (Some q) = inr tt.
Proof.
  destruct self as [pk tr p q up]. simpl. intros Hm Hsaved Hty Hq.
  unfold TransactionDetailForm_clean_quantity, TransactionDetailSerializer_validate,
    TransactionDetailForm_clean, TransactionDetail_clean,
    TransactionDetail.transaction_id in *. simpl in *.
  rewrite Hsaved, Hty.
  assert (str_in request_method ["POST"; "PUT"; "PATCH"] = true) as ->
    by (by apply bool_decide_eq_true).
  rewrite (proj2 (Z.leb_gt q 0)) by done.
  assert ((q =? 0) = false) as -> by (apply Z.eqb_neq; lia). simpl.
  split; [done|]. split; [|split; [|done]].
  - intros [-> Hlt]. rewrite (proj2 (Z.ltb_lt _ q) Hlt). done.
  - intros Hnot. unfold str_in. case_bool_decide as Hsale; [|done].
    apply list_elem_of_singleton in Hsale.
    destruct (Z.ltb_spec (Product.current_stock p) q); [|done]. by destruct Hnot.
Qed.

Lemma stock_checks_agree_witness :
  TransactionDetailForm_clean_quantity 1500 = inr 1500 ∧
  ("sale" = "sale" ∧ 1000 < 1500 →
     TransactionDetailSerializer_validate "POST" (Some "sale") (Some widget_1) (Some 1500)
       = inl (InsufficientStockFor "WID-001" 1000 1500) ∧
     TransactionDetailForm_clean line_b (Some widget_1) (Some 1500)
       = inl (InsufficientStock 1000) ∧
     TransactionDetail_clean line_b = inl (ValidationError widget_1 1000 1500)) ∧
  (¬ ("sale" = "sale" ∧ 1000 < 1500) →
     TransactionDetailSerializer_validate "POST" (Some "sale") (Some widget_1) (Some 1500)
       = inr tt ∧
     TransactionDetailForm_clean line_b (Some widget_1) (Some 1500) = inr tt ∧
     TransactionDetail_clean line_b = inr tt) ∧
  TransactionDetailSerializer_validate "POST" None (Some widget_1) (Some 1500) = inr tt.
Proof.
  apply (stock_checks_agree "POST" "sale" line_b).
  - apply (bool_decide_unpack _). vm_compute. exact I.
  - reflexivity.
  - reflexivity.
  - vm_compute. reflexivity.
Defined.

(** X16.  A line created under a saved transaction of a valid type, with a
    quantity that is not negative, never takes a stock that was not negative
    below zero: a sale is checked against the stock and the three other types
    add. *)
Theorem creation_keeps_stock_nonnegative
    (db : DB) (self : TransactionDetail.t) (k : Z) (db' : DB) :
  TransactionDetail.pk self = None →
  related_loaded db self →
  truthy (TransactionDetail.transaction_id self) = true →
  Transaction_clean (TransactionDetail.transaction self) = inr tt →
  0 ≤ TransactionDetail.quantity self →
  0 ≤ Product.current_stock (TransactionDetail.product self) →
  TransactionDetail_save self db = (inr k, db') →
  ∃ s', stock db' (Product.id (TransactionDetail.product self)) = Some s' ∧ 0 ≤ s'.
Proof.
  intros Hpk Hload Hsaved Hvalid Hq Hs Hsave.
  destruct (save_new_ok_inv _ _ _ _ Hpk Hsave) as (tid & Hclean & _ & _ & _ & ->).
  eexists. unfold stock. simpl. rewrite lookup_insert_eq. simpl.
  split; [reflexivity|]. rewrite product_after_save_stock.
  pose proof (signed_quantity_valid (TransactionDetail.transaction self)
                (TransactionDetail.quantity self) Hvalid) as Hsign.
  unfold signed_quantity, incoming in Hsign. simpl in Hsign.
  unfold TransactionDetail_clean in Hclean. rewrite Hsaved in Hclean. simpl in Hclean.
  destruct (str_in _ ["purchase"; "return"; "adjustment"]); [lia|].
  destruct (str_in _ ["sale"]); [|lia].
  destruct (Z.ltb_spec (Product.current_stock (TransactionDetail.product self))
              (TransactionDetail.quantity self)); [done|lia].
Qed.

Lemma creation_keeps_stock_nonnegative_witness :
  ∃ s', stock db_2 (Product.id (TransactionDetail.product line_c)) = Some s' ∧ 0 ≤ s'.
Proof.
  apply (creation_keeps_stock_nonnegative db_1 line_c 2 db_2).
  - reflexivity.
  - split; [by exists 3|by vm_compute].
  - reflexivity.
  - reflexivity.
  - vm_compute. discriminate.
  - vm_compute. discriminate.
  - by vm_compute.
Defined.
